(** * Context tracking of a WebDriver session

    A shallow embedding of [packages/webdriverio/src/context.ts]: the
    [ContextManager] class, the session ("browser") object it observes and
    the process environment it consults.

    The class keeps two private fields and mutates one flag of the browser;
    its two asynchronous methods may await the browser's [getWindowHandle].
    All of this is modelled by explicit state passing over a [World] that
    holds the process environment, the browser and the manager's fields. *)

From Stdlib Require Import String List Bool Arith Lia.
Import ListNotations.
Local Open Scope string_scope.

(** ** JavaScript values

    [event.body.handle] and [event.body.name] may be missing, and
    [event.result.value] is typed [any]: the fields of the manager can hold
    more than strings at run time.  The fragment of JavaScript values that
    reaches the manager is modelled by this type. *)
Module Js.

Inductive value : Type :=
| undefined
| null
| bool (b : Datatypes.bool)
| str (s : string).

(** Conversion to boolean as done by [if (v)], [!v], [v ? a : b], [a && b]. *)
Definition truthy (v : value) : Datatypes.bool :=
  match v with
  | undefined => false
  | null => false
  | bool b => b
  | str s => negb (s =? "")
  end.

(** The operator [===] on this fragment. *)
Definition strictEq (a b : value) : Datatypes.bool :=
  match a, b with
  | undefined, undefined => true
  | null, null => true
  | bool x, bool y => Bool.eqb x y
  | str x, str y => (x =? y)
  | _, _ => false
  end.

End Js.

(** ** Promises

    An [async] method settles either way; the rejection reason is carried
    as it was thrown. *)
Inductive Completion (A : Type) : Type :=
| Resolved (a : A)
| Rejected (reason : string).
Arguments Resolved {A} a.
Arguments Rejected {A} reason.

(** ** The world *)

(** [process.env]: only [WDIO_UNIT_TESTS] is read. *)
Record Process : Type := mkProcess {
  WDIO_UNIT_TESTS : option string
}.

(** The two callbacks the constructor hands to [browser.on]. *)
Inductive Listener : Type :=
| OnCommand   (* the callback registered on 'command' *)
| OnResult.   (* the callback registered on 'result' *)

(** [WebdriverIO.Browser], as far as the manager touches it.  The answers
    of the remote end to [getWindowHandle] are not under the manager's
    control: [windowHandleReplies n] is how the [n]-th call settles, and
    [windowHandleCalls] counts the calls made so far. *)
Record Browser : Type := mkBrowser {
  isBidi : bool;
  isMobile : bool;
  isNativeContext : bool;
  listeners : list Listener;
  windowHandleReplies : nat -> Completion string;
  windowHandleCalls : nat
}.

(** The private fields [#currentContext] and [#mobileContext]; [#browser]
    is the browser of the world. *)
Record ContextManager : Type := mkContextManager {
  currentContext : Js.value;
  mobileContext : Js.value
}.

Record World : Type := mkWorld {
  env : Process;
  browser : Browser;
  manager : ContextManager
}.

(** Field updates. *)
Definition set_env (p : Process) (w : World) : World :=
  mkWorld p (browser w) (manager w).

Definition set_currentContext (v : Js.value) (w : World) : World :=
  mkWorld (env w) (browser w) (mkContextManager v (mobileContext (manager w))).

Definition set_mobileContext (v : Js.value) (w : World) : World :=
  mkWorld (env w) (browser w) (mkContextManager (currentContext (manager w)) v).

Definition set_isNativeContext (f : bool) (w : World) : World :=
  let b := browser w in
  mkWorld (env w)
    (mkBrowser (isBidi b) (isMobile b) f (listeners b)
       (windowHandleReplies b) (windowHandleCalls b))
    (manager w).

Definition set_listeners (l : list Listener) (w : World) : World :=
  let b := browser w in
  mkWorld (env w)
    (mkBrowser (isBidi b) (isMobile b) (isNativeContext b) l
       (windowHandleReplies b) (windowHandleCalls b))
    (manager w).

Definition count_windowHandleCall (w : World) : World :=
  let b := browser w in
  mkWorld (env w)
    (mkBrowser (isBidi b) (isMobile b) (isNativeContext b) (listeners b)
       (windowHandleReplies b) (S (windowHandleCalls b)))
    (manager w).

(** [browser.on(channel, callback)]. *)
Definition on (l : Listener) (w : World) : World :=
  set_listeners (listeners (browser w) ++ [l]) w.

(** ** Asynchronous computations

    A method that runs to completion without other code in between: it
    reads and writes the world and settles. *)
Definition Async (A : Type) : Type := World -> Completion A * World.

Definition ret {A : Type} (a : A) : Async A := fun w => (Resolved a, w).

Definition bind {A B : Type} (m : Async A) (k : A -> Async B) : Async B :=
  fun w =>
    match m w with
    | (Resolved a, w') => k a w'
    | (Rejected e, w') => (Rejected e, w')
    end.

Definition modify (f : World -> World) : Async unit :=
  fun w => (Resolved tt, f w).

Notation "'await' x '<-' m ';;' k" := (bind m (fun x => k))
  (at level 10, x name, m at level 100, k at level 200).

(** [this.#browser.getWindowHandle()]. *)
Definition getWindowHandle : Async string :=
  fun w =>
    (windowHandleReplies (browser w) (windowHandleCalls (browser w)),
     count_windowHandleCall w).

(** ** Events *)

Record Body : Type := mkBody {
  handle : Js.value;
  name : Js.value
}.

Record CommandEvent : Type := mkCommandEvent {
  command : string;
  body : Body
}.

Record ResultValue : Type := mkResultValue {
  value : Js.value
}.

Record ResultEvent : Type := mkResultEvent {
  completed : string;       (* [event.command] of a 'result' event *)
  result : ResultValue
}.

Inductive Event : Type :=
| Command (e : CommandEvent)
| Result (e : ResultEvent).

(** ** The class *)

Definition NATIVE_APP : string := "NATIVE_APP".

(** [#isEnabled]:
    [!process.env.WDIO_UNIT_TESTS && (this.#browser.isBidi || this.#browser.isMobile)]. *)
Definition unitTests (p : Process) : bool :=
  match WDIO_UNIT_TESTS p with
  | Some s => Js.truthy (Js.str s)
  | None => Js.truthy Js.undefined
  end.

Definition isEnabledFor (p : Process) (b : Browser) : bool :=
  negb (unitTests p) && (isBidi b || isMobile b).

Definition isEnabled (w : World) : bool :=
  isEnabledFor (env w) (browser w).

(** [setCurrentContext(context)]. *)
Definition setCurrentContext (context : Js.value) (w : World) : World :=
  let w1 := set_currentContext context w in
  set_isNativeContext
    (if Js.truthy context
     then Js.strictEq context (Js.str NATIVE_APP)
     else isNativeContext (browser w1))
    w1.

(** The callback of [this.#browser.on('command', ...)]. *)
Definition onCommand (event : CommandEvent) (w : World) : World :=
  let w1 :=
    if command event =? "switchToWindow"
    then setCurrentContext (handle (body event)) w
    else w in
  let w2 :=
    if (command event =? "switchToParentFrame") || (command event =? "refresh")
    then set_currentContext Js.undefined w1
    else w1 in
  let w3 := setCurrentContext (handle (body event)) w2 in
  if command event =? "switchContext"
  then set_mobileContext (name (body event)) w3
  else w3.

(** The callback of [this.#browser.on('result', ...)]. *)
Definition onResult (event : ResultEvent) (w : World) : World :=
  let w1 :=
    if completed event =? "getContext"
    then setCurrentContext (value (result event)) w
    else w in
  if (completed event =? "switchContext")
     && Js.strictEq (value (result event)) Js.null
     && Js.truthy (mobileContext (manager w1))
  then setCurrentContext (mobileContext (manager w1)) w1
  else w1.

(** [new ContextManager(browser)]: both fields start out undefined; the
    callbacks are registered unless [#isEnabled()] is false. *)
Definition newContextManager (p : Process) (b : Browser) : World :=
  let w := mkWorld p b (mkContextManager Js.undefined Js.undefined) in
  if negb (isEnabled w) then w
  else on OnResult (on OnCommand w).

(** [initialize()]. *)
Definition initialize : Async Js.value :=
  fun w =>
    if negb (isEnabled w) then ret (Js.str "") w
    else
      (await windowHandle <-
         (if isNativeContext (browser w)
          then ret NATIVE_APP
          else getWindowHandle) ;;
       await _ <- modify (set_currentContext (Js.str windowHandle)) ;;
       ret (Js.str windowHandle)) w.

(** [getCurrentContext()]. *)
Definition getCurrentContext : Async Js.value :=
  fun w =>
    if negb (Js.truthy (currentContext (manager w)))
    then initialize w
    else ret (currentContext (manager w)) w.

(** ** The browser's side: emitting events

    [browser.emit] calls the registered callbacks in registration order;
    a callback only reacts to events of its own channel. *)
Definition deliver (event : Event) (w : World) (l : Listener) : World :=
  match l, event with
  | OnCommand, Command e => onCommand e w
  | OnResult, Result e => onResult e w
  | _, _ => w
  end.

Definition emit (event : Event) (w : World) : World :=
  fold_left (deliver event) (listeners (browser w)) w.

(** What callers and the browser can do to a manager. *)
Inductive Op : Type :=
| Emit (event : Event)
| Initialize
| GetCurrentContext
| SetCurrentContext (context : Js.value).

(** Runs the operations one after the other, each to completion, and
    collects how the asynchronous ones settled. *)
Fixpoint run (ops : list Op) (w : World) : list (Completion Js.value) * World :=
  match ops with
  | [] => ([], w)
  | Emit event :: rest => run rest (emit event w)
  | Initialize :: rest =>
      let (r, w') := initialize w in
      let (rs, w'') := run rest w' in (r :: rs, w'')
  | GetCurrentContext :: rest =>
      let (r, w') := getCurrentContext w in
      let (rs, w'') := run rest w' in (r :: rs, w'')
  | SetCurrentContext context :: rest => run rest (setCurrentContext context w)
  end.

Definition usesSetter (op : Op) : bool :=
  match op with
  | SetCurrentContext _ => true
  | _ => false
  end.

(** One empty string per asynchronous call among the operations. *)
Fixpoint emptyReplies (ops : list Op) : list (Completion Js.value) :=
  match ops with
  | [] => []
  | Initialize :: rest => Resolved (Js.str "") :: emptyReplies rest
  | GetCurrentContext :: rest => Resolved (Js.str "") :: emptyReplies rest
  | _ :: rest => emptyReplies rest
  end.

(** A tracker that was constructed while enabled on a browser without
    other callbacks, and is still enabled. *)
Definition Tracking (w : World) : Prop :=
  isEnabled w = true /\ listeners (browser w) = [OnCommand; OnResult].

(** A manager that is disabled and has no callback registered. *)
Definition Inert (w : World) : Prop :=
  isEnabled w = false /\ listeners (browser w) = [].

(** A value the getter treats as "no context known". *)
Definition absent (v : Js.value) : Prop := Js.truthy v = false.

(** ** Sample worlds, used to run the model on concrete inputs *)

(** A remote end whose first [getWindowHandle] fails and whose later ones
    answer ["h1"]. *)
Definition flakyReplies (n : nat) : Completion string :=
  match n with
  | 0 => Rejected "no such window"
  | _ => Resolved "h1"
  end.

Definition steadyReplies (_ : nat) : Completion string := Resolved "h1".

Definition bidiBrowser : Browser :=
  mkBrowser true false false [] steadyReplies 0.

Definition flakyBrowser : Browser :=
  mkBrowser true false false [] flakyReplies 0.

(** A remote end whose first [getWindowHandle] answers the empty string. *)
Definition blankFirstReplies (n : nat) : Completion string :=
  match n with
  | 0 => Resolved ""
  | _ => Resolved "h1"
  end.

Definition blankBrowser : Browser :=
  mkBrowser true false false [] blankFirstReplies 0.

Definition nativeBrowser : Browser :=
  mkBrowser false true true [] steadyReplies 0.

Definition mobileBrowser : Browser :=
  mkBrowser false true false [] steadyReplies 0.

Definition plainProcess : Process := mkProcess None.
Definition testProcess : Process := mkProcess (Some "1").

Definition bidiWorld : World := newContextManager plainProcess bidiBrowser.
Definition flakyWorld : World := newContextManager plainProcess flakyBrowser.
Definition nativeWorld : World := newContextManager plainProcess nativeBrowser.
Definition mobileWorld : World := newContextManager plainProcess mobileBrowser.
Definition blankWorld : World := newContextManager plainProcess blankBrowser.
Definition testWorld : World := newContextManager testProcess bidiBrowser.

Definition commandEvent (c : string) (h n : Js.value) : Event :=
  Command (mkCommandEvent c (mkBody h n)).

Definition resultEvent (c : string) (v : Js.value) : Event :=
  Result (mkResultEvent c (mkResultValue v)).

(** ** The registry

    [const contextManager = new Map<WebdriverIO.Browser, ContextManager>()]
    is keyed by the identity of the browser object.  A browser object is
    named by a reference; a realm holds the process environment, the
    browser objects and the map. *)
Definition Ref : Type := nat.

Record Realm : Type := mkRealm {
  process : Process;
  sessions : Ref -> Browser;
  contextManager : list (Ref * ContextManager)
}.

(** [Map.prototype.get]. *)
Fixpoint mapGet (k : Ref) (m : list (Ref * ContextManager))
  : option ContextManager :=
  match m with
  | [] => None
  | (k', v) :: rest => if Nat.eqb k' k then Some v else mapGet k rest
  end.

(** [Map.prototype.set]: an existing key keeps its place, a new one goes
    last. *)
Fixpoint mapSet (k : Ref) (v : ContextManager) (m : list (Ref * ContextManager))
  : list (Ref * ContextManager) :=
  match m with
  | [] => [(k, v)]
  | (k', v') :: rest =>
      if Nat.eqb k' k then (k, v) :: rest else (k', v') :: mapSet k v rest
  end.

(** Writing back the browser object that [b] names. *)
Definition setSession (b : Ref) (x : Browser) (s : Ref -> Browser)
  : Ref -> Browser :=
  fun b' => if Nat.eqb b' b then x else s b'.

(** [getContextManager(browser)]: the manager it returns and the realm it
    leaves.  An object is truthy, so [if (existingContextManager)] is the
    test for a present key. *)
Definition getContextManager (b : Ref) (r : Realm) : ContextManager * Realm :=
  match mapGet b (contextManager r) with
  | Some existingContextManager => (existingContextManager, r)
  | None =>
      let w := newContextManager (process r) (sessions r b) in
      let newContext := manager w in
      (newContext,
       mkRealm (process r)
         (setSession b (browser w) (sessions r))
         (mapSet b newContext (contextManager r)))
  end.

(** What happens to a realm between two looks at it: managers are asked
    for, and the environment variable changes. *)
Inductive RealmOp : Type :=
| Request (b : Ref)
| Setenv (p : Process).

Fixpoint requests (ops : list RealmOp) (r : Realm) : Realm :=
  match ops with
  | [] => r
  | Request b :: rest => requests rest (snd (getContextManager b r))
  | Setenv p :: rest =>
      requests rest (mkRealm p (sessions r) (contextManager r))
  end.

(** ** Events while a read is waiting

    [initialize()] runs without interruption up to its [await]; the
    callbacks are synchronous and run whenever the browser emits, also
    while the promise of [getWindowHandle] is pending. *)

(** Where [initialize()] stands when it first gives up control: settled,
    or waiting for the answer to the fetch it has just made. *)
Inductive Suspension : Type :=
| Settled (r : Completion Js.value)
| Awaiting (reply : Completion string).

(** [initialize()] up to the [await]. *)
Definition initializeStart (w : World) : Suspension * World :=
  if negb (isEnabled w) then (Settled (Resolved (Js.str "")), w)
  else if isNativeContext (browser w)
       then (Settled (Resolved (Js.str NATIVE_APP)),
             set_currentContext (Js.str NATIVE_APP) w)
       else let (reply, w') := getWindowHandle w in (Awaiting reply, w').

(** [initialize()] from the [await] on, once the fetch has settled. *)
Definition initializeResume (reply : Completion string) : Async Js.value :=
  fun w =>
    match reply with
    | Resolved windowHandle =>
        (Resolved (Js.str windowHandle),
         set_currentContext (Js.str windowHandle) w)
    | Rejected reason => (Rejected reason, w)
    end.

(** [getCurrentContext()] up to the point where it first gives up
    control: it returns the stored context at once, or calls
    [initialize()], which runs up to its [await]. *)
Definition getCurrentContextStart (w : World) : Suspension * World :=
  if negb (Js.truthy (currentContext (manager w)))
  then initializeStart w
  else (Settled (Resolved (currentContext (manager w))), w).

(** The browser emits a sequence of events. *)
Definition emitAll (events : list Event) (w : World) : World :=
  fold_left (fun w' event => emit event w') events w.

(** [initialize()] with [events] emitted while it waits. *)
Definition initializeAcross (events : list Event) : Async Js.value :=
  fun w =>
    match initializeStart w with
    | (Settled r, w') => (r, emitAll events w')
    | (Awaiting reply, w') => initializeResume reply (emitAll events w')
    end.

(** ** Measures and invariants of a run *)

(** The asynchronous calls among the operations. *)
Fixpoint reads (ops : list Op) : nat :=
  match ops with
  | [] => 0
  | Initialize :: rest => S (reads rest)
  | GetCurrentContext :: rest => S (reads rest)
  | _ :: rest => reads rest
  end.

Definition isSwitchContextCommand (op : Op) : bool :=
  match op with
  | Emit (Command e) => command e =? "switchContext"
  | _ => false
  end.

(** The part of the world no callback, setter or read ever writes, apart
    from the fetch counter. *)
Definition sameSession (w w' : World) : Prop :=
  env w' = env w /\
  isBidi (browser w') = isBidi (browser w) /\
  isMobile (browser w') = isMobile (browser w) /\
  listeners (browser w') = listeners (browser w) /\
  windowHandleReplies (browser w') = windowHandleReplies (browser w).

(** The native-context flag agrees with a known current context. *)
Definition Consistent (w : World) : Prop :=
  Js.truthy (currentContext (manager w)) = true ->
  isNativeContext (browser w)
  = Js.strictEq (currentContext (manager w)) (Js.str NATIVE_APP).

(** No window handle is the native sentinel. *)
Definition HandlesAreWindows (w : World) : Prop :=
  forall n, windowHandleReplies (browser w) n <> Resolved NATIVE_APP.

(** The callbacks on every browser are none or the manager's two, and
    none where no manager is filed. *)
Definition Registered (r : Realm) : Prop :=
  forall b,
    (mapGet b (contextManager r) = None -> listeners (sessions r b) = []) /\
    (listeners (sessions r b) = [] \/
     listeners (sessions r b) = [OnCommand; OnResult]).

(** A realm in which nothing was asked for yet. *)
Definition Pristine (r : Realm) : Prop :=
  contextManager r = [] /\ forall b, listeners (sessions r b) = [].

Definition sampleRealm : Realm :=
  mkRealm plainProcess
    (fun b => match b with 0 => bidiBrowser | 1 => nativeBrowser | _ => flakyBrowser end)
    [].

(** ** Basic facts *)

Lemma strictEq_eq (a b : Js.value) : Js.strictEq a b = true <-> a = b.
Proof.
  destruct a as [| |x|x], b as [| |y|y]; simpl;
    try (split; [discriminate | congruence]); try tauto.
  - rewrite Bool.eqb_true_iff. split; congruence.
  - rewrite String.eqb_eq. split; congruence.
Qed.

Lemma truthy_str (s : string) : Js.truthy (Js.str s) = true <-> s <> "".
Proof.
  simpl. rewrite negb_true_iff. apply String.eqb_neq.
Qed.

(** What the setter leaves alone. *)
Lemma setCurrentContext_frame (context : Js.value) (w : World) :
  let w' := setCurrentContext context w in
  env w' = env w /\
  isBidi (browser w') = isBidi (browser w) /\
  isMobile (browser w') = isMobile (browser w) /\
  listeners (browser w') = listeners (browser w) /\
  windowHandleReplies (browser w') = windowHandleReplies (browser w) /\
  windowHandleCalls (browser w') = windowHandleCalls (browser w) /\
  mobileContext (manager w') = mobileContext (manager w).
Proof. cbv zeta. unfold setCurrentContext. simpl. tauto. Qed.

Lemma setCurrentContext_current (context : Js.value) (w : World) :
  currentContext (manager (setCurrentContext context w)) = context.
Proof. reflexivity. Qed.

Lemma setCurrentContext_native (context : Js.value) (w : World) :
  isNativeContext (browser (setCurrentContext context w)) =
  if Js.truthy context
  then Js.strictEq context (Js.str NATIVE_APP)
  else isNativeContext (browser w).
Proof. reflexivity. Qed.

(** The setter only looks at the argument and the flag: calling it twice
    with the same argument is calling it once. *)
Lemma setCurrentContext_twice (context : Js.value) (w : World) :
  setCurrentContext context (setCurrentContext context w) =
  setCurrentContext context w.
Proof.
  unfold setCurrentContext, set_isNativeContext, set_currentContext; simpl.
  destruct (Js.truthy context); reflexivity.
Qed.

Lemma setCurrentContext_after_clear (context : Js.value) (w : World) :
  setCurrentContext context (set_currentContext Js.undefined w) =
  setCurrentContext context w.
Proof. reflexivity. Qed.

(** With exactly the manager's two callbacks registered, emitting an event
    runs the callback of its channel once. *)
Lemma onCommand_listeners (e : CommandEvent) (w : World) :
  listeners (browser (onCommand e w)) = listeners (browser w).
Proof.
  unfold onCommand.
  destruct (command e =? "switchToWindow"),
    ((command e =? "switchToParentFrame") || (command e =? "refresh")),
    (command e =? "switchContext"); reflexivity.
Qed.

Lemma onResult_listeners (e : ResultEvent) (w : World) :
  listeners (browser (onResult e w)) = listeners (browser w).
Proof.
  unfold onResult.
  destruct (completed e =? "getContext"); simpl;
    match goal with |- context [if ?c then _ else _] => destruct c end;
    reflexivity.
Qed.

Lemma emit_command (e : CommandEvent) (w : World) :
  listeners (browser w) = [OnCommand; OnResult] ->
  emit (Command e) w = onCommand e w.
Proof. intros L. unfold emit. rewrite L. reflexivity. Qed.

Lemma emit_result (e : ResultEvent) (w : World) :
  listeners (browser w) = [OnCommand; OnResult] ->
  emit (Result e) w = onResult e w.
Proof. intros L. unfold emit. rewrite L. reflexivity. Qed.

Lemma emit_unsubscribed (event : Event) (w : World) :
  listeners (browser w) = [] -> emit event w = w.
Proof. intros L. unfold emit. rewrite L. reflexivity. Qed.

(** The command callback, by what it does to each field. *)
Lemma onCommand_unfold (e : CommandEvent) (w : World) :
  onCommand e w =
  (if command e =? "switchContext"
   then set_mobileContext (name (body e))
   else fun w' => w')
    (setCurrentContext (handle (body e)) w).
Proof.
  unfold onCommand.
  destruct (command e =? "switchToWindow");
    destruct ((command e =? "switchToParentFrame") || (command e =? "refresh"));
    try rewrite setCurrentContext_after_clear;
    try rewrite setCurrentContext_twice;
    destruct (command e =? "switchContext"); reflexivity.
Qed.

Lemma onCommand_enabled (e : CommandEvent) (w : World) :
  isEnabled (onCommand e w) = isEnabled w.
Proof.
  rewrite onCommand_unfold.
  destruct (command e =? "switchContext"); reflexivity.
Qed.

Lemma onResult_enabled (e : ResultEvent) (w : World) :
  isEnabled (onResult e w) = isEnabled w.
Proof.
  unfold onResult.
  destruct (completed e =? "getContext"); simpl;
    match goal with |- context [if ?c then _ else _] => destruct c end;
    reflexivity.
Qed.

Lemma Tracking_emit (event : Event) (w : World) :
  Tracking w -> Tracking (emit event w).
Proof.
  intros [E L]. destruct event as [e|e].
  - rewrite (emit_command e w L). split.
    + rewrite onCommand_enabled. exact E.
    + rewrite onCommand_listeners. exact L.
  - rewrite (emit_result e w L). split.
    + rewrite onResult_enabled. exact E.
    + rewrite onResult_listeners. exact L.
Qed.

Lemma Tracking_bidiWorld : Tracking bidiWorld.
Proof. split; reflexivity. Qed.

Lemma Tracking_nativeWorld : Tracking nativeWorld.
Proof. split; reflexivity. Qed.

(** The two ways [initialize] goes when enabled. *)
Lemma initialize_disabled (w : World) :
  isEnabled w = false -> initialize w = (Resolved (Js.str ""), w).
Proof. intros E. unfold initialize. rewrite E. reflexivity. Qed.

Lemma initialize_native (w : World) :
  isEnabled w = true -> isNativeContext (browser w) = true ->
  initialize w =
  (Resolved (Js.str NATIVE_APP), set_currentContext (Js.str NATIVE_APP) w).
Proof. intros E N. unfold initialize. rewrite E, N. reflexivity. Qed.

Lemma initialize_fetch (w : World) :
  isEnabled w = true -> isNativeContext (browser w) = false ->
  initialize w =
  match windowHandleReplies (browser w) (windowHandleCalls (browser w)) with
  | Resolved h =>
      (Resolved (Js.str h),
       set_currentContext (Js.str h) (count_windowHandleCall w))
  | Rejected reason => (Rejected reason, count_windowHandleCall w)
  end.
Proof.
  intros E N. unfold initialize. rewrite E, N. simpl.
  unfold bind, getWindowHandle.
  destruct (windowHandleReplies (browser w) (windowHandleCalls (browser w)));
    reflexivity.
Qed.

Lemma getCurrentContext_known (w : World) :
  Js.truthy (currentContext (manager w)) = true ->
  getCurrentContext w = (Resolved (currentContext (manager w)), w).
Proof. intros T. unfold getCurrentContext. rewrite T. reflexivity. Qed.

Lemma getCurrentContext_absent (w : World) :
  absent (currentContext (manager w)) ->
  getCurrentContext w = initialize w.
Proof. intros T. unfold getCurrentContext. rewrite T. reflexivity. Qed.

(** ** The setter *)

(** C1.  [setCurrentContext(context)] always stores [context] as the
    current context, whatever was stored before.  When [context] is
    non-empty the browser's native-context flag becomes true exactly when
    [context] is ["NATIVE_APP"] (and so false for any other non-empty
    value); when [context] is empty the flag keeps its value. *)
Theorem setCurrentContext_spec (context : Js.value) (w : World) :
  let w' := setCurrentContext context w in
  currentContext (manager w') = context /\
  (Js.truthy context = true ->
     (isNativeContext (browser w') = true <-> context = Js.str NATIVE_APP)) /\
  (Js.truthy context = true -> context <> Js.str NATIVE_APP ->
     isNativeContext (browser w') = false) /\
  (Js.truthy context = false ->
     isNativeContext (browser w') = isNativeContext (browser w)).
Proof.
  cbv zeta. rewrite setCurrentContext_native, setCurrentContext_current.
  split; [reflexivity|].
  split; [|split].
  - intros T. rewrite T. apply strictEq_eq.
  - intros T N. rewrite T.
    apply not_true_iff_false. rewrite strictEq_eq. exact N.
  - intros T. rewrite T. reflexivity.
Qed.

Lemma setCurrentContext_spec_witness :
  isNativeContext (browser (setCurrentContext (Js.str "h1") nativeWorld)) = false /\
  isNativeContext (browser (setCurrentContext (Js.str "") nativeWorld)) = true.
Proof.
  split.
  - apply (setCurrentContext_spec (Js.str "h1") nativeWorld).
    + reflexivity.
    + discriminate.
  - apply (setCurrentContext_spec (Js.str "") nativeWorld). reflexivity.
Defined.

(** ** The command channel *)

(** C4.  On a tracking manager every command event, whatever its name,
    ends with the setter applied to [event.body.handle] (followed only by
    the bookkeeping of [switchContext]): the stored context is the handle
    and the flag is what the setter makes of it.  A command without a
    handle therefore leaves the stored context undefined and the flag as
    it was, and the next read goes through [initialize]. *)
Theorem command_event_applies_setter (w : World) (e : CommandEvent) :
  Tracking w ->
  let w' := emit (Command e) w in
  (exists w0,
     w' = (if command e =? "switchContext"
           then set_mobileContext (name (body e))
           else fun x => x)
            (setCurrentContext (handle (body e)) w0)) /\
  currentContext (manager w') = handle (body e) /\
  isNativeContext (browser w') =
    isNativeContext (browser (setCurrentContext (handle (body e)) w)) /\
  (handle (body e) = Js.undefined ->
     currentContext (manager w') = Js.undefined /\
     isNativeContext (browser w') = isNativeContext (browser w) /\
     getCurrentContext w' = initialize w').
Proof.
  intros [_ L]. cbv zeta. rewrite (emit_command e w L).
  split.
  - exists w. apply onCommand_unfold.
  - rewrite onCommand_unfold.
    assert (C : currentContext
                  (manager
                     ((if command e =? "switchContext"
                       then set_mobileContext (name (body e))
                       else fun x => x)
                        (setCurrentContext (handle (body e)) w)))
                = handle (body e))
      by (destruct (command e =? "switchContext"); reflexivity).
    split; [exact C|]. split.
    + destruct (command e =? "switchContext"); reflexivity.
    + intros H. split; [|split].
      * rewrite C. exact H.
      * rewrite H. destruct (command e =? "switchContext"); reflexivity.
      * apply getCurrentContext_absent. unfold absent. rewrite C, H.
        reflexivity.
Qed.

Lemma command_event_applies_setter_witness :
  currentContext
    (manager
       (emit (commandEvent "getTitle" Js.undefined Js.undefined)
          (setCurrentContext (Js.str "h1") bidiWorld))) = Js.undefined.
Proof.
  assert (T : Tracking (setCurrentContext (Js.str "h1") bidiWorld))
    by (split; reflexivity).
  destruct (command_event_applies_setter
              (setCurrentContext (Js.str "h1") bidiWorld)
              (mkCommandEvent "getTitle" (mkBody Js.undefined Js.undefined)) T)
    as (_ & _ & _ & U).
  destruct (U eq_refl) as [C _]. exact C.
Defined.

(** C5.  On a tracking manager, after a [switchToWindow] command event
    whose handle is a non-empty string [h], reading the current context
    resolves to [h], changes nothing and asks the browser for no window
    handle. *)
Theorem switchToWindow_then_getCurrentContext
    (w : World) (e : CommandEvent) (h : string) :
  Tracking w ->
  command e = "switchToWindow" ->
  handle (body e) = Js.str h ->
  h <> "" ->
  let w' := emit (Command e) w in
  getCurrentContext w' = (Resolved (Js.str h), w') /\
  windowHandleCalls (browser (snd (getCurrentContext w'))) =
    windowHandleCalls (browser w).
Proof.
  intros [_ L] C H N. cbv zeta. rewrite (emit_command e w L).
  rewrite onCommand_unfold, C, H. simpl.
  assert (T : Js.truthy (Js.str h) = true) by (apply truthy_str; exact N).
  rewrite getCurrentContext_known by exact T.
  split; reflexivity.
Qed.

Lemma switchToWindow_then_getCurrentContext_witness :
  fst (getCurrentContext
         (emit (commandEvent "switchToWindow" (Js.str "h1") Js.undefined)
            bidiWorld))
  = Resolved (Js.str "h1").
Proof.
  pose proof (switchToWindow_then_getCurrentContext bidiWorld
                (mkCommandEvent "switchToWindow" (mkBody (Js.str "h1") Js.undefined))
                "h1" Tracking_bidiWorld eq_refl eq_refl) as P.
  cbv zeta in P.
  assert (N : "h1" <> "") by discriminate.
  destruct (P N) as [G _].
  unfold commandEvent. rewrite G. reflexivity.
Defined.

(** ** The result channel *)

(** C6.  On a tracking manager a [getContext] result event is the setter
    applied to the result's value: after the value ["ctx-42"] the current
    context is ["ctx-42"] and the native-context flag is false; after
    ["NATIVE_APP"] the current context is ["NATIVE_APP"] and the flag is
    true. *)
Theorem getContext_result_adopts_value (w : World) (e : ResultEvent) :
  Tracking w ->
  completed e = "getContext" ->
  let w' := emit (Result e) w in
  w' = setCurrentContext (value (result e)) w /\
  (value (result e) = Js.str "ctx-42" ->
     currentContext (manager w') = Js.str "ctx-42" /\
     isNativeContext (browser w') = false) /\
  (value (result e) = Js.str "NATIVE_APP" ->
     currentContext (manager w') = Js.str "NATIVE_APP" /\
     isNativeContext (browser w') = true).
Proof.
  intros [_ L] C. cbv zeta. rewrite (emit_result e w L).
  assert (R : onResult e w = setCurrentContext (value (result e)) w)
    by (unfold onResult; rewrite C; reflexivity).
  rewrite R. split; [reflexivity|].
  split; intros V; rewrite V; split; reflexivity.
Qed.

Lemma getContext_result_adopts_value_witness :
  let w' := emit (resultEvent "getContext" (Js.str "ctx-42")) nativeWorld in
  currentContext (manager w') = Js.str "ctx-42" /\
  isNativeContext (browser w') = false.
Proof.
  cbv zeta.
  apply (getContext_result_adopts_value nativeWorld
           (mkResultEvent "getContext" (mkResultValue (Js.str "ctx-42")))
           Tracking_nativeWorld eq_refl).
  reflexivity.
Defined.

(** C7 (as amended).  On a tracking manager a [switchContext] command
    event with name [n] stores [n] as the mobile context.  While the
    mobile context holds a non-empty [n], a [switchContext] result event
    whose value is [null] is the setter applied to [n]; with any other
    value (in particular a non-empty one) the result event changes
    nothing. *)
Theorem switchContext_fallback
    (w : World) (ec : CommandEvent) (er : ResultEvent) (n : string) :
  Tracking w ->
  command ec = "switchContext" ->
  name (body ec) = Js.str n ->
  n <> "" ->
  completed er = "switchContext" ->
  mobileContext (manager (emit (Command ec) w)) = Js.str n /\
  (forall w2,
     Tracking w2 ->
     mobileContext (manager w2) = Js.str n ->
     (value (result er) = Js.null ->
        emit (Result er) w2 = setCurrentContext (Js.str n) w2 /\
        currentContext (manager (emit (Result er) w2)) = Js.str n) /\
     (value (result er) <> Js.null -> emit (Result er) w2 = w2)).
Proof.
  intros [_ L] C N NE R. split.
  - rewrite (emit_command ec w L), onCommand_unfold, C, N. reflexivity.
  - intros w2 [_ L2] M. rewrite (emit_result er w2 L2).
    assert (T : Js.truthy (Js.str n) = true) by (apply truthy_str; exact NE).
    unfold onResult. rewrite R. simpl. rewrite M, T.
    split.
    + intros V. rewrite V. simpl. split; reflexivity.
    + intros V.
      destruct (Js.strictEq (value (result er)) Js.null) eqn:Q.
      * apply strictEq_eq in Q. contradiction.
      * reflexivity.
Qed.

Lemma Tracking_mobileWorld : Tracking mobileWorld.
Proof. split; reflexivity. Qed.

Lemma switchContext_fallback_witness :
  let w1 := emit (commandEvent "switchContext" Js.undefined (Js.str "WEBVIEW_1"))
              mobileWorld in
  currentContext (manager (emit (resultEvent "switchContext" Js.null) w1))
  = Js.str "WEBVIEW_1".
Proof.
  cbv zeta.
  assert (NE : "WEBVIEW_1" <> "") by discriminate.
  destruct (switchContext_fallback mobileWorld
              (mkCommandEvent "switchContext"
                 (mkBody Js.undefined (Js.str "WEBVIEW_1")))
              (mkResultEvent "switchContext" (mkResultValue Js.null))
              "WEBVIEW_1" Tracking_mobileWorld eq_refl eq_refl NE eq_refl)
    as [M F].
  destruct (F _ (Tracking_emit _ _ Tracking_mobileWorld) M) as [Z _].
  destruct (Z eq_refl) as [_ G]. exact G.
Defined.

(** C7, as first stated, at the name [""]: the command event stores the
    empty name, the [null] result finds the stored name falsy and does not
    call the setter, and the current context is not the name. *)
Lemma switchContext_fallback_empty_name :
  let w0 := setCurrentContext (Js.str "h1") mobileWorld in
  let w1 := emit (commandEvent "switchContext" Js.undefined (Js.str "")) w0 in
  let w2 := emit (resultEvent "switchContext" Js.null) w1 in
  Tracking w0 /\
  mobileContext (manager w1) = Js.str "" /\
  w2 = w1 /\
  currentContext (manager w2) <> Js.str "".
Proof.
  cbv zeta. repeat split; discriminate.
Qed.

(** C8 (as amended).  On a tracking manager a [switchToParentFrame] or
    [refresh] command event first clears the stored context and then
    applies the setter to the command's handle.  When that handle is empty
    or undefined, the stored context is that handle (absent for the
    getter), the native-context flag is unchanged and the next read goes
    through [initialize]: with one window-handle fetch when the browser is
    not in a native context, and with none, resolving to ["NATIVE_APP"],
    when it is. *)
Theorem reset_command_event (w : World) (e : CommandEvent) :
  Tracking w ->
  command e = "switchToParentFrame" \/ command e = "refresh" ->
  let w' := emit (Command e) w in
  w' = setCurrentContext (handle (body e))
         (set_currentContext Js.undefined w) /\
  (absent (handle (body e)) ->
     currentContext (manager w') = handle (body e) /\
     absent (currentContext (manager w')) /\
     isNativeContext (browser w') = isNativeContext (browser w) /\
     getCurrentContext w' = initialize w' /\
     (isNativeContext (browser w) = false ->
        fst (getCurrentContext w') =
          match windowHandleReplies (browser w) (windowHandleCalls (browser w)) with
          | Resolved h => Resolved (Js.str h)
          | Rejected reason => Rejected reason
          end /\
        windowHandleCalls (browser (snd (getCurrentContext w'))) =
          S (windowHandleCalls (browser w))) /\
     (isNativeContext (browser w) = true ->
        fst (getCurrentContext w') = Resolved (Js.str NATIVE_APP) /\
        windowHandleCalls (browser (snd (getCurrentContext w'))) =
          windowHandleCalls (browser w))).
Proof.
  intros [E L] C. cbv zeta. rewrite (emit_command e w L).
  assert (U : onCommand e w =
              setCurrentContext (handle (body e))
                (set_currentContext Js.undefined w))
    by (unfold onCommand; destruct C as [C|C]; rewrite C; reflexivity).
  rewrite U. split; [reflexivity|].
  intros A. unfold absent in A.
  set (w' := setCurrentContext (handle (body e))
               (set_currentContext Js.undefined w)).
  assert (F : isNativeContext (browser w') = isNativeContext (browser w))
    by (unfold w'; rewrite setCurrentContext_native, A; reflexivity).
  assert (G : getCurrentContext w' = initialize w')
    by (apply getCurrentContext_absent; exact A).
  assert (E' : isEnabled w' = true) by exact E.
  repeat split; try assumption.
  - rewrite G, initialize_fetch by congruence.
    change (windowHandleReplies (browser w') (windowHandleCalls (browser w')))
      with (windowHandleReplies (browser w) (windowHandleCalls (browser w))).
    destruct (windowHandleReplies (browser w) (windowHandleCalls (browser w)));
      reflexivity.
  - rewrite G, initialize_fetch by congruence.
    change (windowHandleReplies (browser w') (windowHandleCalls (browser w')))
      with (windowHandleReplies (browser w) (windowHandleCalls (browser w))).
    destruct (windowHandleReplies (browser w) (windowHandleCalls (browser w)));
      reflexivity.
  - rewrite G, initialize_native by congruence. reflexivity.
  - rewrite G, initialize_native by congruence. reflexivity.
Qed.

Lemma reset_command_event_witness :
  let w := setCurrentContext (Js.str "h1") bidiWorld in
  let w' := emit (commandEvent "switchToParentFrame" Js.undefined Js.undefined) w in
  currentContext (manager w') = Js.undefined /\
  windowHandleCalls (browser (snd (getCurrentContext w'))) = 1.
Proof.
  cbv zeta.
  assert (T : Tracking (setCurrentContext (Js.str "h1") bidiWorld))
    by (split; reflexivity).
  destruct (reset_command_event (setCurrentContext (Js.str "h1") bidiWorld)
              (mkCommandEvent "switchToParentFrame"
                 (mkBody Js.undefined Js.undefined))
              T (or_introl eq_refl)) as [_ R].
  destruct (R eq_refl) as (C & _ & _ & _ & N & _).
  destruct (N eq_refl) as [_ K].
  split; [exact C | exact K].
Defined.

(** C8, as first stated, on a browser in a native context: after a
    [refresh] without handle the stored context is undefined, yet the next
    read resolves to ["NATIVE_APP"] without any window-handle fetch. *)
Lemma reset_command_event_native_no_fetch :
  let w := setCurrentContext (Js.str NATIVE_APP) nativeWorld in
  let w' := emit (commandEvent "refresh" Js.undefined Js.undefined) w in
  Tracking w /\
  currentContext (manager w') = Js.undefined /\
  fst (getCurrentContext w') = Resolved (Js.str NATIVE_APP) /\
  windowHandleCalls (browser (snd (getCurrentContext w'))) =
    windowHandleCalls (browser w') /\
  windowHandleCalls (browser (snd (getCurrentContext w'))) <>
    S (windowHandleCalls (browser w')).
Proof.
  cbv zeta. repeat split; discriminate.
Qed.

(** ** Lazy initialisation *)

(** C9.  When the manager is enabled, the browser is not in a native
    context and the window-handle fetch fails, [initialize] (and
    [getCurrentContext], which calls it when no context is known) rejects
    with the very reason of the fetch, has made exactly one fetch, and has
    not touched the fields: a context that was absent is still absent, and
    the next read calls [initialize] again, which fetches again. *)
Theorem fetch_failure_propagates (w : World) (reason : string) :
  isEnabled w = true ->
  isNativeContext (browser w) = false ->
  windowHandleReplies (browser w) (windowHandleCalls (browser w))
    = Rejected reason ->
  let w' := count_windowHandleCall w in
  initialize w = (Rejected reason, w') /\
  manager w' = manager w /\
  windowHandleCalls (browser w') = S (windowHandleCalls (browser w)) /\
  (absent (currentContext (manager w)) ->
     getCurrentContext w = (Rejected reason, w') /\
     absent (currentContext (manager w')) /\
     getCurrentContext w' = initialize w' /\
     initialize w' =
       match windowHandleReplies (browser w) (S (windowHandleCalls (browser w))) with
       | Resolved h =>
           (Resolved (Js.str h),
            set_currentContext (Js.str h) (count_windowHandleCall w'))
       | Rejected reason' => (Rejected reason', count_windowHandleCall w')
       end).
Proof.
  intros E N F. cbv zeta.
  assert (I : initialize w = (Rejected reason, count_windowHandleCall w))
    by (rewrite initialize_fetch, F by assumption; reflexivity).
  split; [exact I|]. split; [reflexivity|]. split; [reflexivity|].
  intros A. split; [|split; [|split]].
  - rewrite getCurrentContext_absent by exact A. exact I.
  - exact A.
  - apply getCurrentContext_absent. exact A.
  - rewrite initialize_fetch by assumption. reflexivity.
Qed.

Lemma fetch_failure_propagates_witness :
  getCurrentContext flakyWorld
  = (Rejected "no such window", count_windowHandleCall flakyWorld).
Proof.
  destruct (fetch_failure_propagates flakyWorld "no such window"
              eq_refl eq_refl eq_refl) as (_ & _ & _ & G).
  destruct (G eq_refl) as [R _]. exact R.
Defined.

(** The five ways a read goes. *)
Lemma getCurrentContext_cases (w : World) :
  (Js.truthy (currentContext (manager w)) = true /\
   getCurrentContext w = (Resolved (currentContext (manager w)), w))
  \/
  (absent (currentContext (manager w)) /\ isEnabled w = false /\
   getCurrentContext w = (Resolved (Js.str ""), w))
  \/
  (absent (currentContext (manager w)) /\ isEnabled w = true /\
   isNativeContext (browser w) = true /\
   getCurrentContext w
   = (Resolved (Js.str NATIVE_APP), set_currentContext (Js.str NATIVE_APP) w))
  \/
  (absent (currentContext (manager w)) /\ isEnabled w = true /\
   isNativeContext (browser w) = false /\
   exists h,
     windowHandleReplies (browser w) (windowHandleCalls (browser w)) = Resolved h /\
     getCurrentContext w
     = (Resolved (Js.str h),
        set_currentContext (Js.str h) (count_windowHandleCall w)))
  \/
  (absent (currentContext (manager w)) /\ isEnabled w = true /\
   isNativeContext (browser w) = false /\
   exists reason,
     windowHandleReplies (browser w) (windowHandleCalls (browser w))
       = Rejected reason /\
     getCurrentContext w = (Rejected reason, count_windowHandleCall w)).
Proof.
  destruct (Js.truthy (currentContext (manager w))) eqn:T.
  - left. split; [reflexivity|]. apply getCurrentContext_known. exact T.
  - right. rewrite (getCurrentContext_absent w T).
    destruct (isEnabled w) eqn:E.
    + right. destruct (isNativeContext (browser w)) eqn:N.
      * left. split; [exact T|]. split; [reflexivity|]. split; [reflexivity|].
        apply initialize_native; assumption.
      * right. rewrite (initialize_fetch w E N).
        destruct (windowHandleReplies (browser w) (windowHandleCalls (browser w)))
          as [h|r].
        -- left. split; [exact T|]. split; [reflexivity|]. split; [reflexivity|].
           exists h. split; reflexivity.
        -- right. split; [exact T|]. split; [reflexivity|]. split; [reflexivity|].
           exists r. split; reflexivity.
    + left. split; [exact T|]. split; [reflexivity|].
      apply initialize_disabled. exact E.
Qed.

(** C10 (as amended).  Two reads of the current context with no event in
    between, the second made after the first has settled.  If the first
    resolves to a non-empty value, or the manager is disabled, the second
    resolves to the same value and changes nothing, and the two together
    make at most one window-handle fetch.  If the first rejects, nothing
    was stored; if it resolves to an empty window handle on an enabled
    manager, the empty string was stored; in both cases the second read
    runs [initialize()] again and the two reads make two fetches.  If the
    second read is made before the first has settled, on an enabled
    manager outside a native context with no context known, both reads
    make a fetch. *)
Theorem getCurrentContext_twice (w : World) :
  let r1 := getCurrentContext w in
  let r2 := getCurrentContext (snd r1) in
  (forall v,
     fst r1 = Resolved v ->
     Js.truthy v = true \/ isEnabled w = false ->
     r2 = (Resolved v, snd r1) /\
     windowHandleCalls (browser (snd r2))
       <= S (windowHandleCalls (browser w))) /\
  (forall reason,
     fst r1 = Rejected reason ->
     manager (snd r1) = manager w /\
     r2 = initialize (snd r1) /\
     windowHandleCalls (browser (snd r2))
       = 2 + windowHandleCalls (browser w)) /\
  (forall v,
     fst r1 = Resolved v ->
     Js.truthy v = false ->
     isEnabled w = true ->
     v = Js.str "" /\
     currentContext (manager (snd r1)) = Js.str "" /\
     r2 = initialize (snd r1) /\
     windowHandleCalls (browser (snd r2))
       = 2 + windowHandleCalls (browser w)) /\
  (isEnabled w = true ->
   isNativeContext (browser w) = false ->
   absent (currentContext (manager w)) ->
   let s1 := getCurrentContextStart w in
   let s2 := getCurrentContextStart (snd s1) in
   fst s1 = Awaiting
              (windowHandleReplies (browser w) (windowHandleCalls (browser w))) /\
   fst s2 = Awaiting
              (windowHandleReplies (browser w)
                 (S (windowHandleCalls (browser w)))) /\
   windowHandleCalls (browser (snd s2)) = 2 + windowHandleCalls (browser w)).
Proof.
  cbv zeta.
  assert (Again : forall w0,
            isEnabled w0 = true ->
            isNativeContext (browser w0) = false ->
            absent (currentContext (manager w0)) ->
            getCurrentContext w0 = initialize w0 /\
            windowHandleCalls (browser (snd (getCurrentContext w0)))
              = S (windowHandleCalls (browser w0))).
  { intros w0 E0 N0 A0.
    rewrite (getCurrentContext_absent w0 A0). split; [reflexivity|].
    rewrite (initialize_fetch w0 E0 N0).
    destruct (windowHandleReplies (browser w0) (windowHandleCalls (browser w0)));
      reflexivity. }
  split; [|split; [|split]].
  - intros v G H.
    destruct (getCurrentContext_cases w)
      as [[T K]|[(T & E & K)|[(T & E & N & K)|[(T & E & N & h & R & K)
                                              |(T & E & N & r & R & K)]]]];
      rewrite K in *; simpl in *; try discriminate G; inversion G; subst v.
    + rewrite (getCurrentContext_known w T). split; [reflexivity | simpl; auto].
    + rewrite (getCurrentContext_absent w T), (initialize_disabled w E).
      split; [reflexivity | simpl; auto].
    + split; [reflexivity | simpl; auto].
    + destruct H as [H|H]; [|congruence].
      rewrite (getCurrentContext_known
                 (set_currentContext (Js.str h) (count_windowHandleCall w)) H).
      split; [reflexivity | simpl; auto].
  - intros reason G.
    destruct (getCurrentContext_cases w)
      as [[T K]|[(T & E & K)|[(T & E & N & K)|[(T & E & N & h & R & K)
                                              |(T & E & N & r & R & K)]]]];
      rewrite K in *; simpl in *; try discriminate G.
    destruct (Again (count_windowHandleCall w) E N T) as [A1 A2].
    split; [reflexivity|]. split; [exact A1 | exact A2].
  - intros v G F E0.
    destruct (getCurrentContext_cases w)
      as [[T K]|[(T & E & K)|[(T & E & N & K)|[(T & E & N & h & R & K)
                                              |(T & E & N & r & R & K)]]]];
      rewrite K in *; simpl in *; try discriminate G; inversion G; subst v;
      try congruence; try discriminate F.
    assert (Q : h = "").
    { simpl in F. apply negb_false_iff, String.eqb_eq in F. exact F. }
    subst h.
    destruct (Again (set_currentContext (Js.str "") (count_windowHandleCall w))
                E N eq_refl) as [A1 A2].
    split; [reflexivity|]. split; [reflexivity|].
    split; [exact A1 | exact A2].
  - intros E N A. unfold absent in A.
    assert (S1 : getCurrentContextStart w
                 = (Awaiting (windowHandleReplies (browser w)
                                (windowHandleCalls (browser w))),
                    count_windowHandleCall w)).
    { unfold getCurrentContextStart, initializeStart, getWindowHandle.
      rewrite A, E, N. reflexivity. }
    rewrite S1. simpl.
    assert (S2 : getCurrentContextStart (count_windowHandleCall w)
                 = (Awaiting (windowHandleReplies (browser w)
                                (S (windowHandleCalls (browser w)))),
                    count_windowHandleCall (count_windowHandleCall w))).
    { unfold getCurrentContextStart, initializeStart, getWindowHandle.
      change (Js.truthy (currentContext (manager (count_windowHandleCall w))))
        with (Js.truthy (currentContext (manager w))).
      change (isEnabled (count_windowHandleCall w)) with (isEnabled w).
      change (isNativeContext (browser (count_windowHandleCall w)))
        with (isNativeContext (browser w)).
      rewrite A, E, N. reflexivity. }
    rewrite S2. simpl. repeat split.
Qed.

Lemma getCurrentContext_twice_witness :
  getCurrentContext (snd (getCurrentContext bidiWorld))
  = (Resolved (Js.str "h1"), snd (getCurrentContext bidiWorld)).
Proof.
  destruct (getCurrentContext_twice bidiWorld) as (Same & _).
  cbv zeta in Same.
  destruct (Same (Js.str "h1") eq_refl (or_introl eq_refl)) as [G _].
  exact G.
Defined.

(** C10, as first stated, fails in three ways.  Where the first
    window-handle fetch fails, the first read rejects and the second
    fetches again and resolves.  Where the first fetch answers the empty
    string, the first read resolves to it and the second fetches again and
    resolves to another value.  And two reads made before the first has
    settled both fetch.  Each time two fetches are made. *)
Lemma getCurrentContext_twice_refuted :
  (let r1 := getCurrentContext flakyWorld in
   let r2 := getCurrentContext (snd r1) in
   fst r1 = Rejected "no such window" /\
   fst r2 = Resolved (Js.str "h1") /\
   windowHandleCalls (browser (snd r2))
     = 2 + windowHandleCalls (browser flakyWorld) /\
   ~ (fst r1 = fst r2 /\
      windowHandleCalls (browser (snd r2))
        <= S (windowHandleCalls (browser flakyWorld)))) /\
  (let r1 := getCurrentContext blankWorld in
   let r2 := getCurrentContext (snd r1) in
   fst r1 = Resolved (Js.str "") /\
   currentContext (manager (snd r1)) = Js.str "" /\
   fst r2 = Resolved (Js.str "h1") /\
   windowHandleCalls (browser (snd r2))
     = 2 + windowHandleCalls (browser blankWorld) /\
   ~ (fst r1 = fst r2 /\
      windowHandleCalls (browser (snd r2))
        <= S (windowHandleCalls (browser blankWorld)))) /\
  (let s1 := getCurrentContextStart bidiWorld in
   let s2 := getCurrentContextStart (snd s1) in
   fst s1 = Awaiting (Resolved "h1") /\
   fst s2 = Awaiting (Resolved "h1") /\
   windowHandleCalls (browser (snd s2))
     = 2 + windowHandleCalls (browser bidiWorld) /\
   ~ (windowHandleCalls (browser (snd s2))
        <= S (windowHandleCalls (browser bidiWorld)))).
Proof.
  cbv zeta. split; [|split].
  - split; [reflexivity|]. split; [reflexivity|]. split; [reflexivity|].
    intros [D _]. discriminate D.
  - split; [reflexivity|]. split; [reflexivity|]. split; [reflexivity|].
    split; [reflexivity|]. intros [D _]. discriminate D.
  - split; [reflexivity|]. split; [reflexivity|]. split; [reflexivity|].
    simpl. lia.
Qed.

(** ** The enablement gate *)

Lemma getCurrentContext_disabled (w : World) :
  isEnabled w = false ->
  snd (getCurrentContext w) = w /\
  (absent (currentContext (manager w)) ->
   getCurrentContext w = (Resolved (Js.str ""), w)).
Proof.
  intros E. split.
  - unfold getCurrentContext.
    destruct (Js.truthy (currentContext (manager w))); simpl.
    + reflexivity.
    + rewrite initialize_disabled by exact E. reflexivity.
  - intros A. rewrite getCurrentContext_absent by exact A.
    apply initialize_disabled. exact E.
Qed.

Lemma Inert_setCurrentContext (context : Js.value) (w : World) :
  Inert w -> Inert (setCurrentContext context w).
Proof. intros [E L]. split; [exact E | exact L]. Qed.

(** Whatever is done to an inert manager, it stays inert, remembers no
    mobile context and never asks for a window handle. *)
Lemma run_inert (ops : list Op) :
  forall w, Inert w ->
    Inert (snd (run ops w)) /\
    mobileContext (manager (snd (run ops w))) = mobileContext (manager w) /\
    windowHandleCalls (browser (snd (run ops w))) = windowHandleCalls (browser w).
Proof.
  induction ops as [|op rest IH]; intros w I.
  - simpl. auto.
  - destruct I as [E L]. destruct op as [event| | |context]; simpl.
    + rewrite (emit_unsubscribed event w L). apply IH. split; assumption.
    + rewrite (initialize_disabled w E).
      destruct (run rest w) as [rs w''] eqn:R. simpl.
      specialize (IH w (conj E L)). rewrite R in IH. exact IH.
    + destruct (getCurrentContext_disabled w E) as [S0 _].
      destruct (getCurrentContext w) as [r w'] eqn:G. simpl in S0. subst w'.
      destruct (run rest w) as [rs w''] eqn:R. simpl.
      specialize (IH w (conj E L)). rewrite R in IH. exact IH.
    + apply (IH (setCurrentContext context w)).
      apply Inert_setCurrentContext. split; assumption.
Qed.

(** Without a call of the setter nothing changes at all, and every
    asynchronous call resolves to the empty string. *)
Lemma run_quiet (ops : list Op) :
  forall w, Inert w -> absent (currentContext (manager w)) ->
    existsb usesSetter ops = false ->
    run ops w = (emptyReplies ops, w).
Proof.
  induction ops as [|op rest IH]; intros w I A U.
  - reflexivity.
  - destruct I as [E L]. destruct op as [event| | |context]; simpl in *.
    + rewrite (emit_unsubscribed event w L). apply IH; auto. split; assumption.
    + rewrite (initialize_disabled w E).
      rewrite (IH w (conj E L) A U). reflexivity.
    + destruct (getCurrentContext_disabled w E) as [_ G].
      rewrite (G A). rewrite (IH w (conj E L) A U). reflexivity.
    + discriminate.
Qed.

(** Running one list of operations after another. *)
Lemma run_app (ops1 ops2 : list Op) :
  forall w,
    run (ops1 ++ ops2) w
    = ((fst (run ops1 w) ++ fst (run ops2 (snd (run ops1 w))))%list,
       snd (run ops2 (snd (run ops1 w)))).
Proof.
  induction ops1 as [|op rest IH]; intros w; simpl.
  - destruct (run ops2 w); reflexivity.
  - destruct op as [event| | |context].
    + apply IH.
    + destruct (initialize w) as [r w']. rewrite (IH w').
      destruct (run rest w') as [rs w'']. reflexivity.
    + destruct (getCurrentContext w) as [r w']. rewrite (IH w').
      destruct (run rest w') as [rs w'']. reflexivity.
    + apply IH.
Qed.

(** C2 (as amended).  A manager constructed on a browser for which
    tracking is disabled registers no callback and starts with both fields
    undefined.  Whatever is then done to it while tracking stays disabled,
    setter calls included, no callback gets registered, the mobile context
    stays undefined, no window handle is fetched, and every
    [initialize()], wherever it comes in the run, resolves to the empty
    string and changes nothing.  As long as the setter is not called
    directly, nothing changes at all: the current context stays undefined
    and every [getCurrentContext()] resolves to the empty string as well.
    The setter is not gated: also on this manager it stores its argument
    and updates the native-context flag, and [getCurrentContext()] then
    resolves, without any change, to the stored context when that is
    non-empty and to the empty string otherwise. *)
Theorem disabled_tracker_inert (p : Process) (b : Browser) (ops : list Op) :
  isEnabledFor p b = false ->
  listeners b = [] ->
  let w0 := newContextManager p b in
  w0 = mkWorld p b (mkContextManager Js.undefined Js.undefined) /\
  (listeners (browser (snd (run ops w0))) = [] /\
   mobileContext (manager (snd (run ops w0))) = Js.undefined /\
   windowHandleCalls (browser (snd (run ops w0))) = windowHandleCalls b) /\
  (existsb usesSetter ops = false -> run ops w0 = (emptyReplies ops, w0)) /\
  (let w := snd (run ops w0) in
   initialize w = (Resolved (Js.str ""), w) /\
   getCurrentContext w
   = (Resolved (if Js.truthy (currentContext (manager w))
                then currentContext (manager w)
                else Js.str ""), w)) /\
  (forall rest,
     run (ops ++ Initialize :: rest)%list w0
     = ((fst (run ops w0) ++
           Resolved (Js.str "") :: fst (run rest (snd (run ops w0))))%list,
        snd (run rest (snd (run ops w0))))) /\
  (forall context,
     let w := snd (run ops w0) in
     let w' := snd (run (ops ++ [SetCurrentContext context])%list w0) in
     currentContext (manager w') = context /\
     isNativeContext (browser w')
     = (if Js.truthy context
        then Js.strictEq context (Js.str NATIVE_APP)
        else isNativeContext (browser w)) /\
     getCurrentContext w'
     = (Resolved (if Js.truthy context then context else Js.str ""), w')).
Proof.
  intros E L. cbv zeta.
  assert (W : newContextManager p b
              = mkWorld p b (mkContextManager Js.undefined Js.undefined)).
  { unfold newContextManager, isEnabled. simpl. rewrite E. reflexivity. }
  rewrite W.
  set (w0 := mkWorld p b (mkContextManager Js.undefined Js.undefined)).
  assert (I : Inert w0) by (split; [exact E | exact L]).
  assert (Read : forall w, Inert w ->
            initialize w = (Resolved (Js.str ""), w) /\
            getCurrentContext w
            = (Resolved (if Js.truthy (currentContext (manager w))
                         then currentContext (manager w)
                         else Js.str ""), w)).
  { intros w [Ew _]. split; [apply initialize_disabled; exact Ew|].
    destruct (Js.truthy (currentContext (manager w))) eqn:T.
    - apply getCurrentContext_known. exact T.
    - apply (getCurrentContext_disabled w Ew). exact T. }
  destruct (run_inert ops w0 I) as (I' & M & C).
  split; [reflexivity|]. split; [|split; [|split; [|split]]].
  - destruct I' as [_ L']. split; [exact L'|]. split; [exact M | exact C].
  - intros U. apply run_quiet; [exact I | reflexivity | exact U].
  - apply Read. exact I'.
  - intros rest. rewrite run_app. simpl.
    destruct (Read (snd (run ops w0)) I') as [Ri _]. rewrite Ri.
    destruct (run rest (snd (run ops w0))) as [rs w'']. reflexivity.
  - intros context. rewrite run_app. simpl.
    split; [reflexivity|]. split; [reflexivity|].
    destruct (Read (setCurrentContext context (snd (run ops w0)))
                (Inert_setCurrentContext context _ I')) as [_ Rg].
    exact Rg.
Qed.

Lemma disabled_tracker_inert_witness :
  run [Emit (commandEvent "switchToWindow" (Js.str "h1") Js.undefined);
       GetCurrentContext; Initialize] testWorld
  = ([Resolved (Js.str ""); Resolved (Js.str "")], testWorld).
Proof.
  destruct (disabled_tracker_inert testProcess bidiBrowser
              [Emit (commandEvent "switchToWindow" (Js.str "h1") Js.undefined);
               GetCurrentContext; Initialize]
              eq_refl eq_refl) as (_ & _ & Q & _).
  exact (Q eq_refl).
Defined.

(** C2, as first stated, under a direct call of the setter: on a manager
    constructed in unit-test mode, [setCurrentContext("h1")] stores the
    context and clears the browser's native-context flag, and the next
    read resolves to ["h1"], not to the empty string. *)
Lemma disabled_tracker_setter_not_gated :
  let w0 := newContextManager testProcess nativeBrowser in
  let w1 := setCurrentContext (Js.str "h1") w0 in
  isEnabled w0 = false /\
  listeners (browser w0) = [] /\
  isEnabled w1 = false /\
  currentContext (manager w1) = Js.str "h1" /\
  isNativeContext (browser w0) = true /\
  isNativeContext (browser w1) = false /\
  getCurrentContext w1 = (Resolved (Js.str "h1"), w1) /\
  fst (getCurrentContext w1) <> Resolved (Js.str "").
Proof.
  cbv zeta. repeat split; discriminate.
Qed.

(** C3 (as amended).  The enablement decision is taken at construction,
    where it alone decides whether the two callbacks are registered, and
    it is taken again by every [initialize()]: a call resolves to the
    empty string without any change exactly when tracking is disabled at
    the time of that call, and its outcome does not depend on which
    callbacks were registered at construction. *)
Theorem enablement_checked_per_call
    (p : Process) (b : Browser) (w : World) (l : list Listener) :
  listeners (browser (newContextManager p b)) =
    (if isEnabledFor p b then (listeners b ++ [OnCommand; OnResult])%list
     else listeners b) /\
  (isEnabled w = false <-> initialize w = (Resolved (Js.str ""), w)) /\
  initialize (set_listeners l w) =
    (fst (initialize w), set_listeners l (snd (initialize w))) /\
  (absent (currentContext (manager w)) ->
   (isEnabled w = false <-> getCurrentContext w = (Resolved (Js.str ""), w))).
Proof.
  assert (I : isEnabled w = false <-> initialize w = (Resolved (Js.str ""), w)).
  { split; [apply initialize_disabled|].
    intros H. destruct (isEnabled w) eqn:E; [exfalso|reflexivity].
    destruct (isNativeContext (browser w)) eqn:N.
    - rewrite initialize_native in H by assumption. discriminate H.
    - rewrite initialize_fetch in H by assumption.
      destruct (windowHandleReplies (browser w) (windowHandleCalls (browser w)));
        [|discriminate H].
      inversion H as [[H1 H2]].
      apply (f_equal (fun x => windowHandleCalls (browser x))) in H2.
      simpl in H2. lia. }
  split; [|split; [exact I|split]].
  - unfold newContextManager, isEnabled. simpl.
    destruct (isEnabledFor p b); simpl.
    + rewrite <- app_assoc. reflexivity.
    + reflexivity.
  - unfold initialize.
    change (isEnabled (set_listeners l w)) with (isEnabled w).
    destruct (isEnabled w); simpl; [|reflexivity].
    destruct (isNativeContext (browser w)); simpl; [reflexivity|].
    unfold bind, getWindowHandle; simpl.
    destruct (windowHandleReplies (browser w) (windowHandleCalls (browser w)));
      reflexivity.
  - intros A. rewrite getCurrentContext_absent by exact A. exact I.
Qed.

Lemma enablement_checked_per_call_witness :
  isEnabled (set_env testProcess bidiWorld) = false.
Proof.
  destruct (enablement_checked_per_call plainProcess bidiBrowser
              (set_env testProcess bidiWorld) []) as (_ & [_ I] & _).
  apply I. reflexivity.
Defined.

(** C3, as first stated: a manager constructed in unit-test mode (no
    callback registered, [initialize()] resolving to the empty string)
    resolves [initialize()] to the fetched window handle once
    [WDIO_UNIT_TESTS] is unset, although the decision taken at
    construction was "disabled"; a manager constructed while enabled
    resolves to the empty string once the variable is set. *)
Lemma enablement_not_fixed_at_construction :
  let w0 := newContextManager testProcess bidiBrowser in
  let w1 := set_env plainProcess w0 in
  let v0 := newContextManager plainProcess bidiBrowser in
  let v1 := set_env testProcess v0 in
  isEnabled w0 = false /\
  listeners (browser w0) = [] /\
  initialize w0 = (Resolved (Js.str ""), w0) /\
  fst (initialize w1) = Resolved (Js.str "h1") /\
  currentContext (manager (snd (initialize w1))) = Js.str "h1" /\
  fst (initialize w1) <> fst (initialize w0) /\
  listeners (browser v0) = [OnCommand; OnResult] /\
  initialize v1 = (Resolved (Js.str ""), v1).
Proof.
  cbv zeta. repeat split; discriminate.
Qed.

(** ** Beyond single calls: what runs of operations keep *)

(** A property kept by every delivery of an event is kept by [emit],
    whichever callbacks are registered and however often. *)
Lemma emit_invariant (P : World -> Prop) (event : Event) :
  (forall w l, P w -> P (deliver event w l)) ->
  forall w, P w -> P (emit event w).
Proof.
  intros HD w. unfold emit.
  generalize (listeners (browser w)) as ls. intros ls. revert w.
  induction ls as [|l ls IH]; intros w Pw; simpl.
  - exact Pw.
  - apply IH, HD, Pw.
Qed.

(** A property kept by each operation is kept by a run. *)
Lemma run_invariant (P : World -> Prop) :
  (forall event w, P w -> P (emit event w)) ->
  (forall w, P w -> P (snd (initialize w))) ->
  (forall w, P w -> P (snd (getCurrentContext w))) ->
  (forall context w, P w -> P (setCurrentContext context w)) ->
  forall ops w, P w -> P (snd (run ops w)).
Proof.
  intros HE HI HG HS ops.
  induction ops as [|op rest IH]; intros w Pw; simpl.
  - exact Pw.
  - destruct op as [event| | |context].
    + apply IH, HE, Pw.
    + specialize (HI w Pw). destruct (initialize w) as [r w']. simpl in HI.
      specialize (IH w' HI). destruct (run rest w') as [rs w'']. exact IH.
    + specialize (HG w Pw). destruct (getCurrentContext w) as [r w']. simpl in HG.
      specialize (IH w' HG). destruct (run rest w') as [rs w'']. exact IH.
    + apply IH, HS, Pw.
Qed.

(** The result callback either does nothing or ends in the setter. *)
Lemma onResult_cases (e : ResultEvent) (w : World) :
  onResult e w = w \/ exists context, exists w0,
    onResult e w = setCurrentContext context w0 /\
    env w0 = env w /\
    isBidi (browser w0) = isBidi (browser w) /\
    isMobile (browser w0) = isMobile (browser w) /\
    listeners (browser w0) = listeners (browser w) /\
    windowHandleReplies (browser w0) = windowHandleReplies (browser w) /\
    windowHandleCalls (browser w0) = windowHandleCalls (browser w) /\
    mobileContext (manager w0) = mobileContext (manager w).
Proof.
  unfold onResult.
  destruct (completed e =? "getContext").
  - match goal with |- context [if ?c then _ else _] => destruct c end.
    + right. eexists. eexists. split; [reflexivity|].
      apply (setCurrentContext_frame (value (result e)) w).
    + right. exists (value (result e)), w. repeat split.
  - match goal with |- context [if ?c then _ else _] => destruct c end.
    + right. exists (mobileContext (manager w)), w. repeat split.
    + left. reflexivity.
Qed.

Lemma sameSession_refl (w : World) : sameSession w w.
Proof. repeat split. Qed.

Lemma sameSession_trans (w w1 w2 : World) :
  sameSession w w1 -> sameSession w1 w2 -> sameSession w w2.
Proof.
  intros (A1 & A2 & A3 & A4 & A5) (B1 & B2 & B3 & B4 & B5).
  repeat split; congruence.
Qed.

Lemma sameSession_setCurrentContext (context : Js.value) (w : World) :
  sameSession w (setCurrentContext context w).
Proof. repeat split. Qed.

Lemma sameSession_onCommand (e : CommandEvent) (w : World) :
  sameSession w (onCommand e w) /\
  windowHandleCalls (browser (onCommand e w)) = windowHandleCalls (browser w).
Proof.
  rewrite onCommand_unfold.
  destruct (command e =? "switchContext"); repeat split.
Qed.

Lemma sameSession_onResult (e : ResultEvent) (w : World) :
  sameSession w (onResult e w) /\
  windowHandleCalls (browser (onResult e w)) = windowHandleCalls (browser w) /\
  mobileContext (manager (onResult e w)) = mobileContext (manager w).
Proof.
  destruct (onResult_cases e w) as [U | (c & w0 & U & F1 & F2 & F3 & F4 & F5 & F6 & F7)];
    rewrite U.
  - repeat split.
  - destruct (setCurrentContext_frame c w0) as (G1 & G2 & G3 & G4 & G5 & G6 & G7).
    cbv zeta in *. repeat split; congruence.
Qed.

Lemma sameSession_deliver (event : Event) (w : World) (l : Listener) :
  sameSession w (deliver event w l) /\
  windowHandleCalls (browser (deliver event w l)) = windowHandleCalls (browser w).
Proof.
  destruct l, event; simpl;
    try (split; [apply sameSession_refl | reflexivity]).
  - apply sameSession_onCommand.
  - destruct (sameSession_onResult e w) as (A & B & _). split; assumption.
Qed.

Lemma sameSession_emit (event : Event) (w : World) :
  sameSession w (emit event w) /\
  windowHandleCalls (browser (emit event w)) = windowHandleCalls (browser w).
Proof.
  apply (emit_invariant
           (fun w' => sameSession w w' /\
                      windowHandleCalls (browser w') = windowHandleCalls (browser w))).
  - intros w1 l [A B]. destruct (sameSession_deliver event w1 l) as [C D].
    split; [eapply sameSession_trans; eassumption | congruence].
  - split; [apply sameSession_refl | reflexivity].
Qed.

(** The four ways [initialize] leaves the world. *)
Lemma initialize_world (w : World) :
  snd (initialize w) = w \/
  snd (initialize w) = set_currentContext (Js.str NATIVE_APP) w \/
  snd (initialize w) = count_windowHandleCall w \/
  exists h, snd (initialize w)
            = set_currentContext (Js.str h) (count_windowHandleCall w).
Proof.
  destruct (isEnabled w) eqn:E.
  - destruct (isNativeContext (browser w)) eqn:N.
    + rewrite initialize_native by assumption. right. left. reflexivity.
    + rewrite initialize_fetch by assumption.
      destruct (windowHandleReplies (browser w) (windowHandleCalls (browser w)))
        as [h|reason]; simpl.
      * right. right. right. exists h. reflexivity.
      * right. right. left. reflexivity.
  - rewrite initialize_disabled by assumption. left. reflexivity.
Qed.

Lemma getCurrentContext_world (w : World) :
  snd (getCurrentContext w) = w \/ snd (getCurrentContext w) = snd (initialize w).
Proof.
  unfold getCurrentContext.
  destruct (Js.truthy (currentContext (manager w))); simpl; auto.
Qed.

Lemma sameSession_initialize (w : World) :
  sameSession w (snd (initialize w)) /\
  isNativeContext (browser (snd (initialize w))) = isNativeContext (browser w) /\
  mobileContext (manager (snd (initialize w))) = mobileContext (manager w) /\
  windowHandleCalls (browser w) <= windowHandleCalls (browser (snd (initialize w)))
    <= S (windowHandleCalls (browser w)).
Proof.
  destruct (initialize_world w) as [U|[U|[U|[h U]]]]; rewrite U;
    simpl; repeat split; auto.
Qed.

Lemma sameSession_getCurrentContext (w : World) :
  sameSession w (snd (getCurrentContext w)) /\
  isNativeContext (browser (snd (getCurrentContext w)))
    = isNativeContext (browser w) /\
  mobileContext (manager (snd (getCurrentContext w)))
    = mobileContext (manager w) /\
  windowHandleCalls (browser w)
    <= windowHandleCalls (browser (snd (getCurrentContext w)))
    <= S (windowHandleCalls (browser w)).
Proof.
  destruct (getCurrentContext_world w) as [U|U]; rewrite U.
  - repeat split; auto.
  - apply sameSession_initialize.
Qed.

(** X1.  No operation of the manager and no event changes what enablement
    and delivery depend on: the environment variable, the protocol flags,
    the registered callbacks and the answers of the remote end are the
    same after any run, so a manager that is enabled (or tracking) stays
    so. *)
Theorem run_keeps_session (ops : list Op) (w : World) :
  sameSession w (snd (run ops w)) /\
  isEnabled (snd (run ops w)) = isEnabled w /\
  (Tracking w -> Tracking (snd (run ops w))).
Proof.
  assert (S0 : sameSession w (snd (run ops w))).
  { apply (run_invariant (fun w' => sameSession w w')).
    - intros event w1 A. eapply sameSession_trans; [exact A|].
      apply sameSession_emit.
    - intros w1 A. eapply sameSession_trans; [exact A|].
      apply sameSession_initialize.
    - intros w1 A. eapply sameSession_trans; [exact A|].
      apply sameSession_getCurrentContext.
    - intros c w1 A. eapply sameSession_trans; [exact A|].
      apply sameSession_setCurrentContext.
    - apply sameSession_refl. }
  assert (E : isEnabled (snd (run ops w)) = isEnabled w).
  { destruct S0 as (A1 & A2 & A3 & _).
    unfold isEnabled, isEnabledFor. rewrite A1, A2, A3. reflexivity. }
  split; [exact S0|]. split; [exact E|].
  intros [T L]. split; [congruence|].
  destruct S0 as (_ & _ & _ & A4 & _). congruence.
Qed.

Lemma run_keeps_session_witness :
  Tracking
    (snd (run [Emit (commandEvent "refresh" Js.undefined Js.undefined);
               GetCurrentContext;
               SetCurrentContext (Js.str "")] bidiWorld)).
Proof.
  apply (run_keeps_session
           [Emit (commandEvent "refresh" Js.undefined Js.undefined);
            GetCurrentContext;
            SetCurrentContext (Js.str "")] bidiWorld).
  exact Tracking_bidiWorld.
Defined.

(** X2.  Only the two reads ask the browser for a window handle, and each
    at most once: over any run the number of fetches grows by at most the
    number of [initialize()] and [getCurrentContext()] calls, and not at
    all through events or the setter. *)
Theorem run_fetch_bound (ops : list Op) (w : World) :
  windowHandleCalls (browser w)
    <= windowHandleCalls (browser (snd (run ops w)))
    <= windowHandleCalls (browser w) + reads ops.
Proof.
  revert w. induction ops as [|op rest IH]; intros w; simpl.
  - lia.
  - destruct op as [event| | |context].
    + destruct (sameSession_emit event w) as [_ C].
      specialize (IH (emit event w)). rewrite C in IH. exact IH.
    + destruct (sameSession_initialize w) as (_ & _ & _ & C).
      destruct (initialize w) as [r w']. simpl in C.
      specialize (IH w'). destruct (run rest w') as [rs w'']. simpl in *. lia.
    + destruct (sameSession_getCurrentContext w) as (_ & _ & _ & C).
      destruct (getCurrentContext w) as [r w']. simpl in C.
      specialize (IH w'). destruct (run rest w') as [rs w'']. simpl in *. lia.
    + specialize (IH (setCurrentContext context w)). exact IH.
Qed.

Lemma mobileContext_deliver (event : Event) (w : World) (l : Listener) :
  isSwitchContextCommand (Emit event) = false ->
  mobileContext (manager (deliver event w l)) = mobileContext (manager w).
Proof.
  intros N. destruct l, event as [e|e]; simpl; try reflexivity.
  - simpl in N. rewrite onCommand_unfold, N. reflexivity.
  - apply sameSession_onResult.
Qed.

(** X3.  The remembered mobile context is written by [switchContext]
    command events only: a run without such an event leaves it as it was,
    whatever else is emitted, read or set. *)
Theorem mobileContext_only_by_switchContext (ops : list Op) (w : World) :
  existsb isSwitchContextCommand ops = false ->
  mobileContext (manager (snd (run ops w))) = mobileContext (manager w).
Proof.
  revert w. induction ops as [|op rest IH]; intros w N.
  - reflexivity.
  - simpl in N. apply orb_false_iff in N. destruct N as [N1 N2].
    destruct op as [event| | |context]; simpl.
    + rewrite (IH (emit event w) N2).
      apply (emit_invariant
               (fun w' => mobileContext (manager w') = mobileContext (manager w))).
      * intros w1 l A. rewrite mobileContext_deliver by exact N1. exact A.
      * reflexivity.
    + destruct (sameSession_initialize w) as (_ & _ & M & _).
      destruct (initialize w) as [r w']. simpl in M.
      specialize (IH w' N2). destruct (run rest w') as [rs w'']. simpl in *.
      congruence.
    + destruct (sameSession_getCurrentContext w) as (_ & _ & M & _).
      destruct (getCurrentContext w) as [r w']. simpl in M.
      specialize (IH w' N2). destruct (run rest w') as [rs w'']. simpl in *.
      congruence.
    + rewrite (IH (setCurrentContext context w) N2). reflexivity.
Qed.

Lemma mobileContext_only_by_switchContext_witness :
  mobileContext
    (manager
       (snd (run [Emit (resultEvent "switchContext" Js.null);
                  Emit (commandEvent "refresh" Js.undefined (Js.str "ignored"));
                  GetCurrentContext]
               (set_mobileContext (Js.str "WEBVIEW_1") mobileWorld))))
  = Js.str "WEBVIEW_1".
Proof.
  apply (mobileContext_only_by_switchContext
           [Emit (resultEvent "switchContext" Js.null);
            Emit (commandEvent "refresh" Js.undefined (Js.str "ignored"));
            GetCurrentContext]
           (set_mobileContext (Js.str "WEBVIEW_1") mobileWorld)).
  reflexivity.
Defined.

(** X4.  A result event changes nothing unless it completes [getContext],
    or completes [switchContext] with the value [null] while a non-empty
    mobile context is remembered; this holds whichever callbacks are
    registered. *)
Theorem result_event_ignored (e : ResultEvent) (w : World) :
  completed e <> "getContext" ->
  completed e <> "switchContext" \/
  value (result e) <> Js.null \/
  absent (mobileContext (manager w)) ->
  emit (Result e) w = w.
Proof.
  intros G H.
  apply (emit_invariant (fun w' => w' = w)); [|reflexivity].
  intros w1 l A. subst w1. destruct l; simpl; [reflexivity|].
  unfold onResult.
  apply String.eqb_neq in G. rewrite G.
  destruct H as [H|[H|H]].
  - apply String.eqb_neq in H. rewrite H. reflexivity.
  - destruct (Js.strictEq (value (result e)) Js.null) eqn:Q.
    + apply strictEq_eq in Q. contradiction.
    + rewrite andb_false_r. reflexivity.
  - unfold absent in H. rewrite H, andb_false_r. reflexivity.
Qed.

Lemma result_event_ignored_witness :
  emit (resultEvent "switchContext" Js.null) bidiWorld = bidiWorld.
Proof.
  apply (result_event_ignored
           (mkResultEvent "switchContext" (mkResultValue Js.null)) bidiWorld).
  - discriminate.
  - right. right. reflexivity.
Defined.

(** The setter leaves the flag in agreement with what it stored. *)
Lemma Consistent_setCurrentContext (context : Js.value) (w : World) :
  Consistent (setCurrentContext context w).
Proof.
  unfold Consistent.
  rewrite setCurrentContext_current, setCurrentContext_native.
  intros T. rewrite T. reflexivity.
Qed.

Lemma Consistent_deliver (event : Event) (w : World) (l : Listener) :
  Consistent w -> Consistent (deliver event w l).
Proof.
  intros C. destruct l, event as [e|e]; simpl; try exact C.
  - rewrite onCommand_unfold.
    pose proof (Consistent_setCurrentContext (handle (body e)) w) as K.
    destruct (command e =? "switchContext"); exact K.
  - destruct (onResult_cases e w) as [U | (c & w0 & U & _)]; rewrite U.
    + exact C.
    + apply Consistent_setCurrentContext.
Qed.

Lemma Consistent_initialize (w : World) :
  Consistent w -> HandlesAreWindows w -> Consistent (snd (initialize w)).
Proof.
  intros C H.
  destruct (isEnabled w) eqn:E.
  - destruct (isNativeContext (browser w)) eqn:N.
    + rewrite initialize_native by assumption. intros _. exact N.
    + rewrite initialize_fetch by assumption.
      pose proof (H (windowHandleCalls (browser w))) as Hn.
      destruct (windowHandleReplies (browser w) (windowHandleCalls (browser w)))
        as [h|reason]; simpl.
      * intros _. simpl. rewrite N. symmetry.
        apply String.eqb_neq. intros Q. apply Hn. rewrite Q. reflexivity.
      * exact C.
  - rewrite initialize_disabled by assumption. exact C.
Qed.

(** X5.  The native-context flag never disagrees with a known current
    context.  If the flag agrees at the start and the remote end never
    answers ["NATIVE_APP"] as a window handle, then after any run of
    events, reads and setter calls, a non-empty stored context is
    ["NATIVE_APP"] exactly when the flag is true. *)
Theorem run_keeps_flag_consistent (ops : list Op) (w : World) :
  Consistent w ->
  HandlesAreWindows w ->
  Consistent (snd (run ops w)).
Proof.
  intros C H.
  apply (run_invariant (fun w' => Consistent w' /\ HandlesAreWindows w'));
    [| | | |split; assumption].
  - intros event w1 [C1 H1]. split.
    + apply (emit_invariant Consistent); [|exact C1].
      intros w2 l. apply Consistent_deliver.
    + destruct (sameSession_emit event w1) as [(_ & _ & _ & _ & R) _].
      unfold HandlesAreWindows. rewrite R. exact H1.
  - intros w1 [C1 H1]. split.
    + apply Consistent_initialize; assumption.
    + destruct (sameSession_initialize w1) as [(_ & _ & _ & _ & R) _].
      unfold HandlesAreWindows. rewrite R. exact H1.
  - intros w1 [C1 H1]. split.
    + destruct (getCurrentContext_world w1) as [U|U]; rewrite U.
      * exact C1.
      * apply Consistent_initialize; assumption.
    + destruct (sameSession_getCurrentContext w1) as [(_ & _ & _ & _ & R) _].
      unfold HandlesAreWindows. rewrite R. exact H1.
  - intros c w1 [C1 H1]. split.
    + apply Consistent_setCurrentContext.
    + exact H1.
Qed.

Lemma HandlesAreWindows_nativeWorld : HandlesAreWindows nativeWorld.
Proof. intros n. simpl. discriminate. Qed.

Lemma run_keeps_flag_consistent_witness :
  Consistent
    (snd (run [GetCurrentContext;
               Emit (resultEvent "getContext" (Js.str "WEBVIEW_1"));
               Emit (commandEvent "refresh" Js.undefined Js.undefined);
               GetCurrentContext] nativeWorld)).
Proof.
  apply (run_keeps_flag_consistent
           [GetCurrentContext;
            Emit (resultEvent "getContext" (Js.str "WEBVIEW_1"));
            Emit (commandEvent "refresh" Js.undefined Js.undefined);
            GetCurrentContext] nativeWorld).
  - intros T. discriminate T.
  - exact HandlesAreWindows_nativeWorld.
Defined.

(** ** The reads, by their outcome *)

Lemma initialize_stores_result (w w' : World) (v : Js.value) :
  isEnabled w = true ->
  initialize w = (Resolved v, w') ->
  currentContext (manager w') = v.
Proof.
  intros E I.
  destruct (isNativeContext (browser w)) eqn:N.
  - rewrite initialize_native in I by assumption. inversion I; reflexivity.
  - rewrite initialize_fetch in I by assumption.
    destruct (windowHandleReplies (browser w) (windowHandleCalls (browser w)));
      [|discriminate I].
    inversion I; reflexivity.
Qed.

(** X6.  The only way a read fails is a failed window-handle fetch.  If
    [getCurrentContext()] rejects, then no context was known, the manager
    was enabled, the browser was not in a native context, the reason is
    the one the fetch rejected with, and nothing but the fetch counter has
    changed. *)
Theorem getCurrentContext_rejected (w w' : World) (reason : string) :
  getCurrentContext w = (Rejected reason, w') ->
  absent (currentContext (manager w)) /\
  isEnabled w = true /\
  isNativeContext (browser w) = false /\
  windowHandleReplies (browser w) (windowHandleCalls (browser w))
    = Rejected reason /\
  w' = count_windowHandleCall w.
Proof.
  intros G.
  destruct (Js.truthy (currentContext (manager w))) eqn:T.
  - rewrite getCurrentContext_known in G by exact T. discriminate G.
  - rewrite getCurrentContext_absent in G by exact T.
    destruct (isEnabled w) eqn:E.
    + destruct (isNativeContext (browser w)) eqn:N.
      * rewrite initialize_native in G by assumption. discriminate G.
      * rewrite initialize_fetch in G by assumption.
        destruct (windowHandleReplies (browser w) (windowHandleCalls (browser w)))
          as [h|r]; [discriminate G|].
        inversion G; subst. repeat split; assumption.
    + rewrite initialize_disabled in G by exact E. discriminate G.
Qed.

Lemma getCurrentContext_rejected_witness :
  windowHandleReplies (browser flakyWorld) (windowHandleCalls (browser flakyWorld))
  = Rejected "no such window".
Proof.
  apply (getCurrentContext_rejected flakyWorld
           (count_windowHandleCall flakyWorld) "no such window").
  reflexivity.
Defined.

(** X18.  [initialize()] on an enabled manager, when it resolves, stores
    exactly the value it resolves to, whether or not a context was known
    before, and leaves the native-context flag alone.  The value is
    ["NATIVE_APP"] without a fetch when the browser is in a native
    context, and otherwise the handle the one fetch answered, even an
    empty one or ["NATIVE_APP"] itself. *)
Theorem initialize_resolved (w w' : World) (v : Js.value) :
  isEnabled w = true ->
  initialize w = (Resolved v, w') ->
  currentContext (manager w') = v /\
  isNativeContext (browser w') = isNativeContext (browser w) /\
  ((isNativeContext (browser w) = true /\
    v = Js.str NATIVE_APP /\
    windowHandleCalls (browser w') = windowHandleCalls (browser w))
   \/
   (isNativeContext (browser w) = false /\
    (exists h, v = Js.str h /\
       windowHandleReplies (browser w) (windowHandleCalls (browser w))
         = Resolved h) /\
    windowHandleCalls (browser w') = S (windowHandleCalls (browser w)))).
Proof.
  intros E I.
  destruct (isNativeContext (browser w)) eqn:N.
  - rewrite initialize_native in I by assumption.
    inversion I; subst. simpl. rewrite N.
    split; [reflexivity|]. split; [reflexivity|]. left. auto.
  - rewrite initialize_fetch in I by assumption.
    destruct (windowHandleReplies (browser w) (windowHandleCalls (browser w)))
      as [h|r] eqn:R; [|discriminate I].
    inversion I; subst. simpl. rewrite N.
    split; [reflexivity|]. split; [reflexivity|]. right.
    split; [reflexivity|]. split; [|reflexivity].
    exists h. split; reflexivity.
Qed.

Lemma initialize_resolved_witness :
  let w := setCurrentContext (Js.str "stale") bidiWorld in
  currentContext (manager (snd (initialize w))) = Js.str "h1".
Proof.
  cbv zeta.
  apply (initialize_resolved (setCurrentContext (Js.str "stale") bidiWorld)
           (snd (initialize (setCurrentContext (Js.str "stale") bidiWorld)))
           (Js.str "h1")); reflexivity.
Defined.

(** X7.  After [getCurrentContext()] has resolved on an enabled manager,
    the stored context is the value it resolved to and the native-context
    flag and the mobile context are as before; the value is either the
    context that was known (world untouched) or what [initialize()]
    resolved to. *)
Theorem getCurrentContext_resolved (w w' : World) (v : Js.value) :
  isEnabled w = true ->
  getCurrentContext w = (Resolved v, w') ->
  currentContext (manager w') = v /\
  isNativeContext (browser w') = isNativeContext (browser w) /\
  mobileContext (manager w') = mobileContext (manager w) /\
  ((Js.truthy (currentContext (manager w)) = true /\
    v = currentContext (manager w) /\ w' = w)
   \/
   (absent (currentContext (manager w)) /\ initialize w = (Resolved v, w'))).
Proof.
  intros E G.
  destruct (sameSession_getCurrentContext w) as (_ & F & M & _).
  rewrite G in F, M. simpl in F, M.
  destruct (Js.truthy (currentContext (manager w))) eqn:T.
  - rewrite getCurrentContext_known in G by exact T. inversion G; subst.
    repeat split. left. repeat split.
  - rewrite getCurrentContext_absent in G by exact T.
    pose proof (initialize_stores_result w w' v E G) as C.
    split; [exact C|]. split; [exact F|]. split; [exact M|].
    right. split; [exact T | exact G].
Qed.

Lemma getCurrentContext_resolved_witness :
  currentContext (manager (snd (getCurrentContext nativeWorld)))
  = Js.str NATIVE_APP.
Proof.
  apply (getCurrentContext_resolved nativeWorld
           (snd (getCurrentContext nativeWorld)) (Js.str NATIVE_APP));
    reflexivity.
Defined.

(** X8.  Tracking is enabled exactly when [WDIO_UNIT_TESTS] is unset or the
    empty string and the browser is BiDi or mobile; any non-empty value of
    the variable disables it. *)
Theorem isEnabledFor_iff (p : Process) (b : Browser) :
  isEnabledFor p b = true <->
  (WDIO_UNIT_TESTS p = None \/ WDIO_UNIT_TESTS p = Some "") /\
  (isBidi b = true \/ isMobile b = true).
Proof.
  unfold isEnabledFor, unitTests.
  rewrite andb_true_iff, orb_true_iff, negb_true_iff.
  split; intros [U F]; (split; [|exact F]).
  - destruct (WDIO_UNIT_TESTS p) as [s|]; [|left; reflexivity].
    right. simpl in U. apply negb_false_iff, String.eqb_eq in U.
    rewrite U. reflexivity.
  - destruct U as [U|U]; rewrite U; reflexivity.
Qed.

Lemma isEnabledFor_iff_witness :
  isEnabledFor (mkProcess (Some "")) mobileBrowser = true.
Proof.
  apply (isEnabledFor_iff (mkProcess (Some "")) mobileBrowser).
  split; [right; reflexivity | right; reflexivity].
Defined.

(** ** The registry *)

Lemma mapGet_mapSet_same (k : Ref) (v : ContextManager)
    (m : list (Ref * ContextManager)) :
  mapGet k (mapSet k v m) = Some v.
Proof.
  induction m as [|[k' v'] m IH]; simpl.
  - rewrite Nat.eqb_refl. reflexivity.
  - destruct (Nat.eqb k' k) eqn:Q; simpl.
    + rewrite Nat.eqb_refl. reflexivity.
    + rewrite Q. exact IH.
Qed.

Lemma mapGet_mapSet_other (k k' : Ref) (v : ContextManager)
    (m : list (Ref * ContextManager)) :
  k <> k' -> mapGet k' (mapSet k v m) = mapGet k' m.
Proof.
  intros D. induction m as [|[k0 v0] m IH]; simpl.
  - apply Nat.eqb_neq in D. rewrite D. reflexivity.
  - destruct (Nat.eqb k0 k) eqn:Q; simpl.
    + apply Nat.eqb_eq in Q. subst k0.
      apply Nat.eqb_neq in D. rewrite D. reflexivity.
    + destruct (Nat.eqb k0 k'); [reflexivity | exact IH].
Qed.

Lemma setSession_same (b : Ref) (x : Browser) (s : Ref -> Browser) :
  setSession b x s b = x.
Proof. unfold setSession. rewrite Nat.eqb_refl. reflexivity. Qed.

Lemma setSession_other (b b' : Ref) (x : Browser) (s : Ref -> Browser) :
  b <> b' -> setSession b x s b' = s b'.
Proof.
  intros D. unfold setSession.
  destruct (Nat.eqb b' b) eqn:Q; [|reflexivity].
  apply Nat.eqb_eq in Q. congruence.
Qed.

Lemma newContextManager_listeners (p : Process) (b : Browser) :
  listeners b = [] ->
  listeners (browser (newContextManager p b)) = [] \/
  listeners (browser (newContextManager p b)) = [OnCommand; OnResult].
Proof.
  intros L. unfold newContextManager, isEnabled. simpl.
  destruct (isEnabledFor p b); simpl.
  - right. rewrite L. reflexivity.
  - left. exact L.
Qed.

(** What a request does to the browser and the entry of any reference. *)
Lemma getContextManager_at (b b' : Ref) (r : Realm) :
  let r' := snd (getContextManager b r) in
  process r' = process r /\
  (b <> b' ->
     sessions r' b' = sessions r b' /\
     mapGet b' (contextManager r') = mapGet b' (contextManager r)) /\
  (forall existing, mapGet b (contextManager r) = Some existing -> r' = r) /\
  (mapGet b (contextManager r) = None ->
     sessions r' b = browser (newContextManager (process r) (sessions r b)) /\
     mapGet b (contextManager r')
       = Some (manager (newContextManager (process r) (sessions r b)))).
Proof.
  cbv zeta. unfold getContextManager.
  destruct (mapGet b (contextManager r)) as [m|] eqn:G; simpl.
  - split; [reflexivity|]. split; [|split].
    + intros _. split; reflexivity.
    + intros _ _. reflexivity.
    + discriminate.
  - split; [reflexivity|]. split; [|split].
    + intros D. split.
      * apply setSession_other. exact D.
      * apply mapGet_mapSet_other. exact D.
    + discriminate.
    + intros _. split.
      * apply setSession_same.
      * apply mapGet_mapSet_same.
Qed.

(** X9.  The first request for a browser constructs its manager as
    [new ContextManager(browser)] does, registering the callbacks on that
    browser when tracking is enabled, and files it under the browser; the
    manager returned is the one filed. *)
Theorem getContextManager_creates (b : Ref) (r : Realm) :
  mapGet b (contextManager r) = None ->
  let m := fst (getContextManager b r) in
  let r' := snd (getContextManager b r) in
  mkWorld (process r') (sessions r' b) m
    = newContextManager (process r) (sessions r b) /\
  currentContext m = Js.undefined /\
  mobileContext m = Js.undefined /\
  mapGet b (contextManager r') = Some m.
Proof.
  intros G. cbv zeta.
  destruct (getContextManager_at b b r) as (P & _ & _ & C).
  cbv zeta in *. destruct (C G) as [C1 C2].
  assert (M : fst (getContextManager b r)
              = manager (newContextManager (process r) (sessions r b)))
    by (unfold getContextManager; rewrite G; reflexivity).
  rewrite M, C1, P, C2.
  split; [|split; [|split]]; try reflexivity.
  - unfold newContextManager.
    match goal with |- context [if ?c then _ else _] => destruct c end;
      reflexivity.
  - unfold newContextManager.
    match goal with |- context [if ?c then _ else _] => destruct c end;
      reflexivity.
  - unfold newContextManager.
    match goal with |- context [if ?c then _ else _] => destruct c end;
      reflexivity.
Qed.

Lemma getContextManager_creates_witness :
  mapGet 0 (contextManager (snd (getContextManager 0 sampleRealm)))
  = Some (fst (getContextManager 0 sampleRealm)).
Proof.
  apply (getContextManager_creates 0 sampleRealm). reflexivity.
Defined.

(** X10.  A request for one browser touches no other: the browser object
    and the registry entry of every other reference are as before, and so
    is the environment. *)
Theorem getContextManager_other (b b' : Ref) (r : Realm) :
  b <> b' ->
  let r' := snd (getContextManager b r) in
  sessions r' b' = sessions r b' /\
  mapGet b' (contextManager r') = mapGet b' (contextManager r) /\
  process r' = process r.
Proof.
  intros D. cbv zeta.
  destruct (getContextManager_at b b' r) as (P & O & _).
  cbv zeta in *. destruct (O D) as [O1 O2].
  split; [exact O1|]. split; [exact O2 | exact P].
Qed.

Lemma getContextManager_other_witness :
  sessions (snd (getContextManager 0 sampleRealm)) 1 = nativeBrowser.
Proof.
  assert (D : 0 <> 1) by discriminate.
  destruct (getContextManager_other 0 1 sampleRealm D) as [S0 _].
  exact S0.
Defined.

Lemma requests_entry (ops : list RealmOp) :
  forall (b : Ref) (m : ContextManager) (r : Realm),
    mapGet b (contextManager r) = Some m ->
    mapGet b (contextManager (requests ops r)) = Some m /\
    sessions (requests ops r) b = sessions r b.
Proof.
  induction ops as [|op rest IH]; intros b m r G; simpl.
  - split; [exact G | reflexivity].
  - destruct op as [b0|p].
    + destruct (Nat.eq_dec b0 b) as [Q|Q].
      * subst b0.
        destruct (getContextManager_at b b r) as (_ & _ & S0 & _).
        cbv zeta in S0. rewrite (S0 m G). apply IH. exact G.
      * destruct (getContextManager_at b0 b r) as (_ & O & _).
        cbv zeta in O. destruct (O Q) as [O1 O2].
        destruct (IH b m (snd (getContextManager b0 r))) as [I1 I2].
        -- rewrite O2. exact G.
        -- split; [exact I1|]. rewrite I2. exact O1.
    + apply (IH b m (mkRealm p (sessions r) (contextManager r))). exact G.
Qed.

(** X11.  One manager per browser, for good.  Once a manager is filed under
    a browser, every later request for that browser returns that very
    manager and changes nothing, however many requests for this or other
    browsers and changes of the environment variable lie in between; no
    second manager is constructed and no callback is registered again. *)
Theorem getContextManager_reuses (b : Ref) (r : Realm) (ops : list RealmOp) :
  let m := fst (getContextManager b r) in
  let r1 := requests ops (snd (getContextManager b r)) in
  getContextManager b r1 = (m, r1) /\
  sessions r1 b = sessions (snd (getContextManager b r)) b.
Proof.
  cbv zeta.
  assert (G : mapGet b (contextManager (snd (getContextManager b r)))
              = Some (fst (getContextManager b r))).
  { unfold getContextManager.
    destruct (mapGet b (contextManager r)) as [m|] eqn:Q; simpl.
    - exact Q.
    - apply mapGet_mapSet_same. }
  destruct (requests_entry ops b _ _ G) as [E S0].
  split; [|exact S0].
  unfold getContextManager at 1. rewrite E. reflexivity.
Qed.

Lemma Registered_getContextManager (b : Ref) (r : Realm) :
  Registered r -> Registered (snd (getContextManager b r)).
Proof.
  intros R b'.
  destruct (Nat.eq_dec b b') as [Q|Q].
  - subst b'.
    destruct (getContextManager_at b b r) as (_ & _ & S0 & C). cbv zeta in *.
    destruct (mapGet b (contextManager r)) as [m|] eqn:G.
    + rewrite (S0 m eq_refl). exact (R b).
    + destruct (C eq_refl) as [C1 C2]. rewrite C1, C2. split.
      * discriminate.
      * apply newContextManager_listeners.
        destruct (R b) as [N _]. apply N. exact G.
  - destruct (getContextManager_at b b' r) as (_ & O & _). cbv zeta in O.
    destruct (O Q) as [O1 O2]. rewrite O1, O2. exact (R b').
Qed.

(** X12.  Callbacks are never registered twice.  Starting from a realm in
    which no manager was asked for and no browser has callbacks, after any
    sequence of requests for managers and changes of the environment
    variable every browser carries either no callback or exactly the
    command callback followed by the result callback, and none at all as
    long as no manager was requested for it. *)
Theorem callbacks_registered_once (ops : list RealmOp) (r : Realm) :
  Pristine r -> Registered (requests ops r).
Proof.
  intros [E L].
  assert (R : Registered r).
  { intros b. split; [intros _; apply L | left; apply L]. }
  clear E L. revert r R.
  induction ops as [|op rest IH]; intros r R; simpl.
  - exact R.
  - destruct op as [b|p].
    + apply IH, Registered_getContextManager, R.
    + apply IH. exact R.
Qed.

Lemma callbacks_registered_once_witness :
  Registered
    (requests [Request 0; Setenv testProcess; Request 1; Request 0;
               Setenv plainProcess; Request 1] sampleRealm).
Proof.
  apply (callbacks_registered_once
           [Request 0; Setenv testProcess; Request 1; Request 0;
            Setenv plainProcess; Request 1] sampleRealm).
  split; [reflexivity|].
  intros b. destruct b as [|[|b]]; reflexivity.
Defined.

(** ** Composition *)

(** X13.  A setter call with a non-empty context wipes out every earlier
    setter call: the world is the same as if only the later call had been
    made. *)
Theorem setCurrentContext_overrides (c1 c2 : Js.value) (w : World) :
  Js.truthy c2 = true ->
  setCurrentContext c2 (setCurrentContext c1 w) = setCurrentContext c2 w.
Proof.
  intros T.
  unfold setCurrentContext, set_isNativeContext, set_currentContext; simpl.
  rewrite T. reflexivity.
Qed.

Lemma setCurrentContext_overrides_witness :
  setCurrentContext (Js.str "h2") (setCurrentContext (Js.str NATIVE_APP) bidiWorld)
  = setCurrentContext (Js.str "h2") bidiWorld.
Proof.
  apply (setCurrentContext_overrides (Js.str NATIVE_APP) (Js.str "h2") bidiWorld).
  reflexivity.
Defined.

Lemma deliver_command_name (e1 e2 : CommandEvent) (w : World) (l : Listener) :
  command e1 <> "switchContext" ->
  command e2 <> "switchContext" ->
  handle (body e1) = handle (body e2) ->
  deliver (Command e1) w l = deliver (Command e2) w l.
Proof.
  intros N1 N2 H. destruct l; simpl; [|reflexivity].
  rewrite !onCommand_unfold.
  apply String.eqb_neq in N1. apply String.eqb_neq in N2.
  rewrite N1, N2, H. reflexivity.
Qed.

(** X14.  Apart from [switchContext], the name of a command makes no
    difference to the manager: two command events with the same handle
    leave the same world, so [switchToWindow], [switchToParentFrame] and
    [refresh] are handled exactly like any other command carrying that
    handle. *)
Theorem command_name_irrelevant (e1 e2 : CommandEvent) (w : World) :
  command e1 <> "switchContext" ->
  command e2 <> "switchContext" ->
  handle (body e1) = handle (body e2) ->
  emit (Command e1) w = emit (Command e2) w.
Proof.
  intros N1 N2 H. unfold emit.
  generalize (listeners (browser w)) as ls. intros ls. revert w.
  induction ls as [|l ls IH]; intros w; simpl.
  - reflexivity.
  - rewrite (deliver_command_name e1 e2 w l N1 N2 H). apply IH.
Qed.

Lemma command_name_irrelevant_witness :
  emit (commandEvent "refresh" Js.undefined Js.undefined)
    (setCurrentContext (Js.str "h1") bidiWorld)
  = emit (commandEvent "getTitle" Js.undefined Js.undefined)
      (setCurrentContext (Js.str "h1") bidiWorld).
Proof.
  apply (command_name_irrelevant
           (mkCommandEvent "refresh" (mkBody Js.undefined Js.undefined))
           (mkCommandEvent "getTitle" (mkBody Js.undefined Js.undefined))
           (setCurrentContext (Js.str "h1") bidiWorld)).
  - discriminate.
  - discriminate.
  - reflexivity.
Defined.

(** ** Events while [initialize()] waits *)

Lemma emitAll_invariant (P : World -> Prop) :
  (forall event w, P w -> P (emit event w)) ->
  forall events w, P w -> P (emitAll events w).
Proof.
  intros HE events. unfold emitAll.
  induction events as [|event rest IH]; intros w Pw; simpl.
  - exact Pw.
  - apply IH, HE, Pw.
Qed.

(** X15.  The write of a resumed [initialize()] wins over the events it
    waited through.  On an enabled manager outside a native context,
    whatever events are emitted while the window handle is fetched, once
    the fetch answers [h] the call resolves to [h] and the stored context
    is [h]; the native-context flag and the mobile context are what the
    events left, and exactly one fetch was made.  Without events in
    between this is [initialize()] itself. *)
Theorem initialize_overwrites_events
    (events : list Event) (w : World) (h : string) :
  isEnabled w = true ->
  isNativeContext (browser w) = false ->
  windowHandleReplies (browser w) (windowHandleCalls (browser w)) = Resolved h ->
  let w1 := emitAll events (count_windowHandleCall w) in
  initializeAcross events w = (Resolved (Js.str h), set_currentContext (Js.str h) w1) /\
  currentContext (manager (snd (initializeAcross events w))) = Js.str h /\
  isNativeContext (browser (snd (initializeAcross events w)))
    = isNativeContext (browser w1) /\
  mobileContext (manager (snd (initializeAcross events w)))
    = mobileContext (manager w1) /\
  windowHandleCalls (browser (snd (initializeAcross events w)))
    = S (windowHandleCalls (browser w)) /\
  initializeAcross [] w = initialize w.
Proof.
  intros E N R. cbv zeta.
  assert (A : forall evs,
             initializeAcross evs w
             = (Resolved (Js.str h),
                set_currentContext (Js.str h)
                  (emitAll evs (count_windowHandleCall w)))).
  { intros evs. unfold initializeAcross, initializeStart, getWindowHandle.
    rewrite E, N, R. reflexivity. }
  rewrite (A events). simpl.
  split; [reflexivity|]. split; [reflexivity|]. split; [reflexivity|].
  split; [reflexivity|]. split.
  - apply (emitAll_invariant
             (fun w' => windowHandleCalls (browser w')
                        = S (windowHandleCalls (browser w)))).
    + intros event w0 C. destruct (sameSession_emit event w0) as [_ K].
      congruence.
    + reflexivity.
  - rewrite (A []). rewrite initialize_fetch, R by assumption. reflexivity.
Qed.

Lemma initialize_overwrites_events_witness :
  let w := snd (initializeAcross
                  [commandEvent "switchToWindow" (Js.str "h2") Js.undefined;
                   resultEvent "getContext" (Js.str NATIVE_APP)]
                  bidiWorld) in
  currentContext (manager w) = Js.str "h1".
Proof.
  cbv zeta.
  apply (initialize_overwrites_events
           [commandEvent "switchToWindow" (Js.str "h2") Js.undefined;
            resultEvent "getContext" (Js.str NATIVE_APP)]
           bidiWorld "h1"); reflexivity.
Defined.

(** X16.  When the awaited fetch fails, what the events wrote in the
    meantime stays.  On an enabled manager outside a native context whose
    fetch rejects, [initialize()] rejects with that reason and the world is
    the one the events emitted during the wait have left; with no such
    events it is [initialize()] itself. *)
Theorem initialize_failure_keeps_events
    (events : list Event) (w : World) (reason : string) :
  isEnabled w = true ->
  isNativeContext (browser w) = false ->
  windowHandleReplies (browser w) (windowHandleCalls (browser w))
    = Rejected reason ->
  initializeAcross events w
    = (Rejected reason, emitAll events (count_windowHandleCall w)) /\
  initializeAcross [] w = initialize w.
Proof.
  intros E N R.
  assert (A : forall evs,
             initializeAcross evs w
             = (Rejected reason, emitAll evs (count_windowHandleCall w))).
  { intros evs. unfold initializeAcross, initializeStart, getWindowHandle.
    rewrite E, N, R. reflexivity. }
  split; [apply A|].
  rewrite (A []). rewrite initialize_fetch, R by assumption. reflexivity.
Qed.

Lemma initialize_failure_keeps_events_witness :
  currentContext
    (manager
       (snd (initializeAcross
               [commandEvent "switchToWindow" (Js.str "h2") Js.undefined]
               flakyWorld)))
  = Js.str "h2".
Proof.
  destruct (initialize_failure_keeps_events
              [commandEvent "switchToWindow" (Js.str "h2") Js.undefined]
              flakyWorld "no such window" eq_refl eq_refl eq_refl) as [A _].
  rewrite A. reflexivity.
Defined.
